(** * Days-of-inventory dashboard: the rule pipeline of [app.py]

    A shallow embedding of the data-transformation part of the Streamlit
    script [app.py]: the DOI status classifier, the four rule filters, the
    buyer aggregate, the samples, the insight lines and the two views.

    Conventions.
    - A pandas [DataFrame] is the list of its rows in index order; a column
      ([Series]) is the list of its values in the same order.
    - Numeric columns are float64 columns; a cell is held as the rational
      ([Q]) it denotes, so comparisons are exact, while sums and formatting
      round as float64 arithmetic does ([round64]).  Magnitudes stay within
      the finite range of float64: no sum overflows to infinity.  The two
      quantity columns hold integers ([Z]).  Every cell is populated (the
      loader hands over a well-typed table), so there is no NaN.
    - A [Timestamp] is a number of nanoseconds since the epoch.
    - Python exceptions are values of [result]; the wall clock, the random
      state and the widget selections are explicit inputs. *)

From Stdlib Require Import List String Ascii ZArith QArith Qabs Lia Bool Arith.
From Stdlib Require Import Permutation Sorted DecimalString Lqa.
From Stdlib Require OrderedTypeEx DecimalNat DecimalFacts SpecFloat.
Import ListNotations.

Local Open Scope string_scope.
Local Open Scope Q_scope.
Local Open Scope list_scope.

(* ================================================================= *)
(** ** Numbers, strings, exceptions *)

(** Python's [x < y] on two numbers. *)
Definition Qltb (x y : Q) : bool :=
  (Qnum x * QDen y <? Qnum y * QDen x)%Z.

(** The exceptions the pandas calls of the script can raise. *)
Inductive exn : Type :=
| ValueError (msg : string).

Inductive result (A : Type) : Type :=
| Ok (a : A)
| Raise (e : exn).
Arguments Ok {A} a.
Arguments Raise {A} e.

Definition rbind {A B : Type} (m : result A) (k : A -> result B) : result B :=
  match m with
  | Ok a => k a
  | Raise e => Raise e
  end.

Notation "x <- m ;; k" := (rbind m (fun x => k))
  (at level 61, m at next level, right associativity).

(** [str(n)] for a count. *)
Definition str_nat (n : nat) : string :=
  NilZero.string_of_uint (Nat.to_uint n).

(** Thousands separators, on the digits in reverse order. *)
Fixpoint commas_rev (ds : list ascii) : list ascii :=
  match ds with
  | a :: b :: c :: ((_ :: _) as rest) => a :: b :: c :: ","%char :: commas_rev rest
  | _ => ds
  end.

(** Rounding to the nearest integer, halves to the even neighbour. *)
Definition round_half_even (q : Q) : Z :=
  let d := Zpos (Qden q) in
  let fl := (Qnum q / d)%Z in
  match (2 * (Qnum q mod d) ?= d)%Z with
  | Lt => fl
  | Gt => (fl + 1)%Z
  | Eq => if Z.even fl then fl else (fl + 1)%Z
  end.

(** [2 ** e] for an integer exponent of either sign. *)
Definition pow2 (e : Z) : Q :=
  if (0 <=? e)%Z then inject_Z (2 ^ e) else 1 # Z.to_pos (2 ^ (- e)).

(** The binary exponent of the last place of the float64 nearest [q]: the
    [e] with [2 ** 52 <= |q| / 2 ** e < 2 ** 53], or -1074 where [q] falls
    in the subnormal range. *)
Definition exponent64 (q : Q) : Z :=
  let e0 := (Z.log2 (Z.abs (Qnum q)) - Z.log2 (Zpos (Qden q)) - 52)%Z in
  let e := if Qltb (Qabs q) (pow2 (e0 + 52)) then (e0 - 1)%Z else e0 in
  Z.max e (-1074).

(** IEEE 754 rounding to binary64, to nearest with ties to the even
    significand. *)
Definition round64 (q : Q) : Q :=
  if Qeq_bool q 0 then 0
  else let e := exponent64 q in
       Qred (inject_Z (round_half_even (q / pow2 e)) * pow2 e).

(** [x + y] and [x - y] on two float64 values: the exact result, rounded. *)
Definition fadd (x y : Q) : Q := round64 (x + y).
Definition fsub (x y : Q) : Q := round64 (x - y).

(** The format spec [:,.0f]: the amount is taken as a float64, then shown
    rounded to a whole number. *)
Definition format_comma_0f (q : Q) : string :=
  let x := round64 q in
  let digits := NilZero.string_of_uint (N.to_uint (Z.abs_N (round_half_even x))) in
  let grouped := string_of_list_ascii
                   (rev (commas_rev (rev (list_ascii_of_string digits)))) in
  if Qltb x 0 then String.append "-" grouped else grouped.

(** [sep.join(parts)]. *)
Definition join (sep : string) (parts : list string) : string :=
  String.concat sep parts.

(* ================================================================= *)
(** ** The table *)

Definition Timestamp := Z.

(** [pd.Timedelta(days=n)], in nanoseconds. *)
Definition Timedelta_days (n : Z) : Z := (n * 86400000000000)%Z.

(** One row of [days_of_inventory_200_products.csv], plus the column the
    script appends.  [DOI_Status] is [None] until line 48 has run. *)
Record Row : Type := mkRow {
  Product : string;
  Warehouse : string;
  Buyer : string;
  Category : string;
  StockQty : Z;
  AvgLandedCost : Q;
  TotalInventoryCost : Q;
  Last12MoQtySold : Z;
  DOI : Q;
  OverstockInventoryValue : Q;
  ExpiryDate : Timestamp;
  _12MoDollarsSold : Q;
  DOI_Status : option string
}.

Definition DataFrame := list Row.

(** A [Series] indexed by group key, as [groupby(...)[col].sum()] returns. *)
Definition Series := list (string * Q).

(** [df[c]]: a column of the frame. *)
Definition column {A : Type} (c : Row -> A) (df : DataFrame) : list A :=
  map c df.

(** [df.shape[0]] and [len(df)]. *)
Definition shape0 (df : DataFrame) : nat := List.length df.

(** [df.empty]. *)
Definition empty (df : DataFrame) : bool :=
  match df with [] => true | _ :: _ => false end.

(** [df.head(n)]. *)
Definition head (n : nat) (df : DataFrame) : DataFrame := firstn n df.

(** [df[col].unique()]: the distinct values in order of first appearance. *)
Fixpoint unique_from (seen : list string) (l : list string) : list string :=
  match l with
  | [] => []
  | x :: l' =>
      if existsb (String.eqb x) seen then unique_from seen l'
      else x :: unique_from (x :: seen) l'
  end.

Definition unique (l : list string) : list string := unique_from [] l.

(** Element-wise comparisons of a column with a scalar. *)
Definition lt_scalar (s : list Q) (c : Q) : list bool := map (fun x => Qltb x c) s.
Definition gt_scalar (s : list Q) (c : Q) : list bool := map (fun x => Qltb c x) s.
Definition lt_scalar_int (s : list Z) (c : Z) : list bool := map (fun x => (x <? c)%Z) s.
Definition lt_scalar_ts (s : list Timestamp) (c : Timestamp) : list bool :=
  map (fun x => (x <? c)%Z) s.
Definition eq_scalar_str (s : list string) (c : string) : list bool :=
  map (fun x => String.eqb x c) s.

(** [mask1 & mask2]. *)
Fixpoint mask_and (m1 m2 : list bool) : list bool :=
  match m1, m2 with
  | a :: m1', b :: m2' => (a && b) :: mask_and m1' m2'
  | _, _ => []
  end.

(** [df[mask]] with a boolean mask.  Every mask in the script is computed
    from the frame it indexes, so both have the same length; rows beyond the
    shorter of the two are dropped. *)
Fixpoint loc_mask (df : DataFrame) (mask : list bool) : DataFrame :=
  match df, mask with
  | r :: df', b :: mask' =>
      if b then r :: loc_mask df' mask' else loc_mask df' mask'
  | _, _ => []
  end.

(** [df['DOI_Status'] = values]: the one in-place update of the script.
    pandas refuses a list whose length differs from the frame's. *)
Definition set_DOI_Status (r : Row) (s : string) : Row :=
  mkRow (Product r) (Warehouse r) (Buyer r) (Category r) (StockQty r)
        (AvgLandedCost r) (TotalInventoryCost r) (Last12MoQtySold r) (DOI r)
        (OverstockInventoryValue r) (ExpiryDate r) (_12MoDollarsSold r) (Some s).

Fixpoint assign_DOI_Status (df : DataFrame) (values : list string)
  : result DataFrame :=
  match df, values with
  | [], [] => Ok []
  | r :: df', s :: values' =>
      rest <- assign_DOI_Status df' values' ;;
      Ok (set_DOI_Status r s :: rest)
  | _, _ => Raise (ValueError "Length of values does not match length of index")
  end.

(* ================================================================= *)
(** ** Status classifier (lines 37-48) *)

Definition LOW : string := "🔴 Low".
Definition OVERSTOCK : string := "🟢 Overstock".
Definition NORMAL : string := "🟡 Normal".

(** The body of the [for] loop: the label appended for one [doi]. *)
Definition doi_label (doi : Q) : string :=
  if Qltb doi 10 then LOW
  else if Qltb 180 doi then OVERSTOCK
  else NORMAL.

(** [get_doi_status(dois)]: the loop appends one label per value. *)
Definition get_doi_status (dois : list Q) : list string :=
  fold_left (fun status doi => status ++ [doi_label doi]) dois [].

(* ================================================================= *)
(** ** Rule filters of the Overview (lines 52-55) *)

Definition low_doi_df (df : DataFrame) : DataFrame :=
  loc_mask df (lt_scalar (column DOI df) 10).

Definition overstock_df (df : DataFrame) : DataFrame :=
  loc_mask df (gt_scalar (column OverstockInventoryValue df) 0).

(** [today] is the value of [pd.Timestamp.today()] when the line runs. *)
Definition expiring_df (today : Timestamp) (df : DataFrame) : DataFrame :=
  loc_mask df (lt_scalar_ts (column ExpiryDate df)
                            (today + Timedelta_days 30)%Z).

Definition high_cost_low_sales_df (df : DataFrame) : DataFrame :=
  loc_mask df (mask_and (gt_scalar (column TotalInventoryCost df) 5000)
                        (lt_scalar_int (column Last12MoQtySold df) 50)).

(* ================================================================= *)
(** ** Aggregates (lines 64-67) *)

(** pandas' grouped sum is a compensated (Kahan) sum in float64: each group
    carries its running sum and the rounding error still to be given back.
    One value is added as the library does it:
    [y = val - compensation; t = sumx + y;
     compensation = t - sumx - y; sumx = t]. *)
Definition kahan_step (st : Q * Q) (val : Q) : Q * Q :=
  let sumx := fst st in
  let compensation := snd st in
  let y := fsub val compensation in
  let t := fadd sumx y in
  (t, fsub (fsub t sumx) y).

(** The compensated float64 sum of a list of values, taken in order. *)
Definition float_sum (vals : list Q) : Q :=
  fst (fold_left kahan_step vals (0, 0)).

(** One step of [groupby(key)[col].sum()]: the value of a row is added to
    the state of its group.  Groups are kept in ascending key order (pandas
    sorts group keys). *)
Fixpoint add_to_group (k : string) (v : Q) (acc : list (string * (Q * Q)))
  : list (string * (Q * Q)) :=
  match acc with
  | [] => [(k, kahan_step (0, 0) v)]
  | (k', st) :: rest =>
      match String.compare k k' with
      | Eq => (k', kahan_step st v) :: rest
      | Lt => (k, kahan_step (0, 0) v) :: acc
      | Gt => (k', st) :: add_to_group k v rest
      end
  end.

(** The rows are visited in table order, each cell read as a float64; the
    result holds each group's running sum. *)
Definition groupby_sum (key : Row -> string) (col : Row -> Q) (df : DataFrame)
  : Series :=
  map (fun e => (fst e, fst (snd e)))
      (fold_left (fun acc r => add_to_group (key r) (round64 (col r)) acc)
                 df []).

(** The first entry holding the largest value, scanning from [best]. *)
Fixpoint argmax_from (best : string * Q) (s : Series) : string * Q :=
  match s with
  | [] => best
  | x :: s' => if Qltb (snd best) (snd x) then argmax_from x s'
               else argmax_from best s'
  end.

(** [s.idxmax()]: the label of the first maximum; raises on an empty
    series. *)
Definition idxmax (s : Series) : result string :=
  match s with
  | [] => Raise (ValueError "attempt to get argmax of an empty sequence")
  | x :: s' => Ok (fst (argmax_from x s'))
  end.

(** [s.max()]: [None] stands for the NaN of an empty series. *)
Definition series_max (s : Series) : option Q :=
  match s with
  | [] => None
  | x :: s' => Some (fold_left (fun m y => if Qltb m (snd y) then snd y else m) s' (snd x))
  end.

(** Line 66.  [None] is Python's [None]. *)
Definition top_buyer (overstock_df : DataFrame) : result (option string) :=
  if negb (empty overstock_df) then
    b <- idxmax (groupby_sum Buyer OverstockInventoryValue overstock_df) ;;
    Ok (Some b)
  else Ok None.

(** Line 67. *)
Definition top_buyer_val (overstock_df : DataFrame) : option Q :=
  if negb (empty overstock_df) then
    series_max (groupby_sum Buyer OverstockInventoryValue overstock_df)
  else Some 0.

(* ================================================================= *)
(** ** Sampling (lines 68-69) *)

(** The random state, as the stream of its raw draws. *)
Definition RandomState := nat -> nat.

(** Removes and returns the element at position [i]. *)
Fixpoint pick {A : Type} (i : nat) (l : list A) : option (A * list A) :=
  match l with
  | [] => None
  | x :: l' =>
      match i with
      | O => Some (x, l')
      | S i' => match pick i' l' with
                | Some (y, rest) => Some (y, x :: rest)
                | None => None
                end
      end
  end.

(** A random arrangement of [l]: [n] successive draws without
    replacement. *)
Fixpoint draw {A : Type} (rs : RandomState) (n : nat) (l : list A) : list A :=
  match n with
  | O => []
  | S n' =>
      match pick (rs n' mod List.length l)%nat l with
      | Some (x, rest) => x :: draw rs n' rest
      | None => []
      end
  end.

Definition permutation {A : Type} (rs : RandomState) (l : list A) : list A :=
  draw rs (List.length l) l.

(** [df.sample(n)]: [n] rows without replacement; pandas raises when [n]
    exceeds the number of rows. *)
Definition sample (rs : RandomState) (n : nat) (df : DataFrame)
  : result DataFrame :=
  if (n <=? List.length df)%nat then Ok (firstn n (permutation rs df))
  else Raise (ValueError
    "Cannot take a larger sample than population when 'replace=False'").

Definition risky_sample (rs : RandomState) (high_cost_low_sales_df : DataFrame)
  : result (list string) :=
  s <- sample rs (Nat.min 2 (List.length high_cost_low_sales_df))
              high_cost_low_sales_df ;;
  Ok (column Product s).

Definition expiring_sample (rs : RandomState) (expiring_df : DataFrame)
  : result (list string) :=
  s <- sample rs (Nat.min 2 (List.length expiring_df)) expiring_df ;;
  Ok (column Product s).

(* ================================================================= *)
(** ** Insight lines (lines 71-78) *)

(** Truth value of a [str] or [None], and of a list, in an [if]. *)
Definition truthy_str (s : option string) : bool :=
  match s with
  | Some (String _ _) => true
  | _ => false
  end.

Definition truthy_list {A : Type} (l : list A) : bool :=
  match l with [] => false | _ :: _ => true end.

(** The four f-strings. *)
Definition low_stock_line (low_doi_count : nat) : string :=
  String.concat "" ["<li><b>🔻 "; str_nat low_doi_count;
    " products</b> are critically low on inventory (DOI < 10).</li>"].

Definition top_buyer_line (top_buyer : option string) (top_buyer_val : option Q)
  : string :=
  String.concat "" ["<li><b>📦 Buyer ";
    match top_buyer with Some b => b | None => "None" end;
    "</b> is carrying <b>$";
    match top_buyer_val with Some v => format_comma_0f v | None => "nan" end;
    "</b> in overstocked items.</li>"].

Definition risky_line (risky_sample : list string) : string :=
  String.concat "" ["<li><b>⚠️ High holding cost</b> with low movement detected in SKUs: ";
    join ", " risky_sample; ".</li>"].

Definition expiring_line (expiring_sample : list string) : string :=
  String.concat "" ["<li><b>⏳ Expiring soon</b>: ";
    join ", " expiring_sample; " within 30 days.</li>"].

(** Lines 52-78 of the Overview: the filters, the aggregates, the two
    samples (the second continues the random stream where the first
    stopped) and the list of lines. *)
Definition insight_lines (rs : RandomState) (today : Timestamp) (df : DataFrame)
  : result (list string) :=
  let low := low_doi_df df in
  let over := overstock_df df in
  let expiring := expiring_df today df in
  let high := high_cost_low_sales_df df in
  let low_doi_count := shape0 low in
  buyer <- top_buyer over ;;
  let buyer_val := top_buyer_val over in
  risky <- risky_sample rs high ;;
  soon <- expiring_sample (fun i => rs (i + List.length high)%nat) expiring ;;
  let lines := [] in
  let lines := lines ++ [low_stock_line low_doi_count] in
  let lines := if truthy_str buyer
               then lines ++ [top_buyer_line buyer buyer_val] else lines in
  let lines := if truthy_list risky then lines ++ [risky_line risky] else lines in
  let lines := if truthy_list soon then lines ++ [expiring_line soon] else lines in
  Ok lines.

(* ================================================================= *)
(** ** Top-N selections (lines 119 and 183) *)

(** [df.sort_values(by=col, ascending=False)] under one of pandas' sorting
    algorithms.  The script does not pass [kind], so pandas uses its default,
    'quicksort', whose code is numpy's and is not modelled here: the
    algorithm is an input of the model. *)
Definition SortKind := (Row -> Q) -> DataFrame -> DataFrame.

(** What every [kind] guarantees: the rows are rearranged, and the column
    is in descending order. *)
Definition descending (by_ : Row -> Q) (df : DataFrame) : Prop :=
  StronglySorted (fun a b => by_ b <= by_ a) df.

Definition sorts (kind : SortKind) : Prop :=
  forall by_ df, Permutation (kind by_ df) df /\ descending by_ (kind by_ df).

Definition top_overstock (kind : SortKind) (df : DataFrame) : DataFrame :=
  head 10 (kind OverstockInventoryValue df).

Definition top_revenue (kind : SortKind) (filtered_df : DataFrame) : DataFrame :=
  head 10 (kind _12MoDollarsSold filtered_df).

(** Two algorithms that meet the contract, both by insertion; neither is
    claimed to be the one pandas runs.  They serve as instances of
    statements made for every algorithm.  [before x y] tells whether the
    new row [x] goes in front of the row [y] already placed. *)
Fixpoint insert_row (before : Row -> Row -> bool) (x : Row) (l : DataFrame)
  : DataFrame :=
  match l with
  | [] => [x]
  | y :: l' => if before x y then x :: l else y :: insert_row before x l'
  end.

Definition insertion_sort (before : Row -> Row -> bool) (df : DataFrame)
  : DataFrame :=
  fold_right (insert_row before) [] df.

(** Equal values keep their original order ([kind='stable']). *)
Definition kind_stable : SortKind :=
  fun by_ => insertion_sort (fun x y => negb (Qltb (by_ x) (by_ y))).

(** Equal values end up in the reverse of their original order. *)
Definition kind_reversing : SortKind :=
  fun by_ => insertion_sort (fun x y => Qltb (by_ y) (by_ x)).

(** The selection as the specification words it: a stable descending sort,
    then the first [n] rows. *)
Definition spec_top_n (n : nat) (by_ : Row -> Q) (df : DataFrame) : DataFrame :=
  firstn n (kind_stable by_ df).

(* ================================================================= *)
(** ** The two views *)

Record OverviewOut : Type := mkOverview {
  ov_insight_lines : list string;
  ov_total_products : nat;
  ov_low_stock : nat;
  ov_doi_chart : DataFrame;
  ov_overstock_chart : DataFrame;
  ov_table : DataFrame
}.

Definition low_doi_count (df : DataFrame) : nat := shape0 (low_doi_df df).

(** The Overview, without its two currency totals (lines 97-98): those are
    numpy column sums, which are left outside the model. *)
Definition overview (rs : RandomState) (today : Timestamp) (kind : SortKind)
  (df : DataFrame) : result OverviewOut :=
  lines <- insight_lines rs today df ;;
  let total_products := shape0 df in
  let low_stock := shape0 (low_doi_df df) in
  Ok (mkOverview lines total_products low_stock df (top_overstock kind df) df).

(** Lines 142-148: the copy, then the three optional equality filters. *)
Definition keep_equal (col : Row -> string) (selected : string)
  (filtered_df : DataFrame) : DataFrame :=
  if negb (String.eqb selected "All")
  then loc_mask filtered_df (eq_scalar_str (column col filtered_df) selected)
  else filtered_df.

Definition filtered_df (selected_warehouse selected_buyer selected_category : string)
  (df : DataFrame) : DataFrame :=
  let filtered_df := df in
  let filtered_df := keep_equal Warehouse selected_warehouse filtered_df in
  let filtered_df := keep_equal Buyer selected_buyer filtered_df in
  let filtered_df := keep_equal Category selected_category filtered_df in
  filtered_df.

(** Line 204. *)
Definition expiring_soon (today : Timestamp) (filtered_df : DataFrame)
  : DataFrame :=
  loc_mask filtered_df (lt_scalar_ts (column ExpiryDate filtered_df)
                                     (today + Timedelta_days 90)%Z).

(** The data handed to each chart of the Explorer, in page order; the
    expiry chart is replaced by a message when its frame is empty. *)
Record ExplorerOut : Type := mkExplorer {
  ex_scatter_chart : DataFrame;
  ex_avg_doi_chart : DataFrame;
  ex_cat_chart : DataFrame;
  ex_revenue_chart : DataFrame;
  ex_doi_cost_chart : DataFrame;
  ex_expiry_chart : option DataFrame
}.

Definition explorer_charts (today : Timestamp) (kind : SortKind)
  (filtered_df : DataFrame) : ExplorerOut :=
  let soon := expiring_soon today filtered_df in
  mkExplorer filtered_df filtered_df filtered_df (top_revenue kind filtered_df)
             filtered_df (if negb (empty soon) then Some soon else None).

Definition explorer (today : Timestamp) (kind : SortKind)
  (selected_warehouse selected_buyer selected_category : string)
  (df : DataFrame) : ExplorerOut :=
  explorer_charts today kind
    (filtered_df selected_warehouse selected_buyer selected_category df).

(** The options of a select box (lines 138-140). *)
Definition options (col : Row -> string) (df : DataFrame) : list string :=
  "All" :: unique (column col df).

(* ================================================================= *)
(** ** The script as a whole *)

(** A run of the script threads the one mutable object, the global [df];
    every other value is freshly built by the pandas call that returns it. *)
Definition App (A : Type) : Type := DataFrame -> result (A * DataFrame).

Definition app_ret {A : Type} (a : A) : App A := fun df => Ok (a, df).

Definition app_bind {A B : Type} (m : App A) (k : A -> App B) : App B :=
  fun df => match m df with
            | Ok (a, df') => k a df'
            | Raise e => Raise e
            end.

Notation "x <~ m ;; k" := (app_bind m (fun x => k))
  (at level 61, m at next level, right associativity).

Definition read {A : Type} (f : DataFrame -> A) : App A :=
  fun df => Ok (f df, df).

Definition try {A : Type} (f : DataFrame -> result A) : App A :=
  fun df => a <- f df ;; Ok (a, df).

Definition setitem_DOI_Status (values : list string) : App unit :=
  fun df => df' <- assign_DOI_Status df values ;; Ok (tt, df').

Record Inputs : Type := mkInputs {
  view_mode : string;
  selected_warehouse : string;
  selected_buyer : string;
  selected_category : string;
  today : Timestamp;
  random_state : RandomState;
  kind : SortKind
}.

Inductive Page : Type :=
| OverviewPage (o : OverviewOut)
| ExplorerPage (e : ExplorerOut)
| NoPage.

(** Lines 48-213, started on the frame [load_data] returned. *)
Definition script (inp : Inputs) : App Page :=
  dois <~ read (column DOI) ;;
  _ <~ setitem_DOI_Status (get_doi_status dois) ;;
  if String.eqb (view_mode inp) "📊 Overview" then
    o <~ try (overview (random_state inp) (today inp) (kind inp)) ;;
    app_ret (OverviewPage o)
  else if String.eqb (view_mode inp) "📈 Visual Explorer" then
    e <~ read (explorer (today inp) (kind inp) (selected_warehouse inp)
                 (selected_buyer inp) (selected_category inp)) ;;
    app_ret (ExplorerPage e)
  else app_ret NoPage.

(* ================================================================= *)
(** ** Vocabulary of the properties *)

(** A frame is a sub-sequence of another: same rows, same relative order,
    some possibly missing. *)
Inductive subframe : DataFrame -> DataFrame -> Prop :=
| subframe_nil : subframe [] []
| subframe_keep r s df : subframe s df -> subframe (r :: s) (r :: df)
| subframe_drop r s df : subframe s df -> subframe s (r :: df).

(** The frame after line 48: every row carries the label of its own DOI. *)
Definition classified (raw : DataFrame) : DataFrame :=
  map (fun r => set_DOI_Status r (doi_label (DOI r))) raw.


(** The float64 values of [col] in the rows whose [key] is [k], in table
    order. *)
Definition group_values (key : Row -> string) (col : Row -> Q) (k : string)
  (df : DataFrame) : list Q :=
  map (fun r => round64 (col r)) (filter (fun r => String.eqb (key r) k) df).

(** The groups with their running states, before the sums are read off. *)
Definition group_states (key : Row -> string) (col : Row -> Q)
  (df : DataFrame) : list (string * (Q * Q)) :=
  fold_left (fun acc r => add_to_group (key r) (round64 (col r)) acc) df [].

(** The value a series holds at label [k], if any. *)
Fixpoint series_get {V : Type} (k : string) (s : list (string * V))
  : option V :=
  match s with
  | [] => None
  | (k', v) :: s' => if String.eqb k' k then Some v else series_get k s'
  end.

(** Group keys in strictly ascending order. *)
Definition keys_ascending {V : Type} (s : list (string * V)) : Prop :=
  StronglySorted (fun a b => String.compare (fst a) (fst b) = Lt) s.

(** Every row of [frame] is a row of [df] in warehouse [W]. *)
Definition rows_of_warehouse (W : string) (df frame : DataFrame) : Prop :=
  forall r, In r frame -> In r df /\ Warehouse r = W.

(** *** Sample data *)

(** A clock reading on 2026-11-04 at noon, and a product with 50 days of
    inventory, nothing overstocked, expiring on 2100-01-01. *)
Definition noon : Timestamp := 1793793600000000000%Z.

Definition row0 : Row :=
  mkRow "P0" "W1" "Ann" "Tools" 0 0 0 0 50 0 4102444800000000000%Z 0 None.



(** A table with a warehouse that is itself named "All", and [row0] in
    warehouse "W1". *)
Definition two_warehouses : DataFrame :=
  [mkRow "P1" "All" "Bob" "Toys" 0 0 0 0 50 0 4102444800000000000%Z 0 None;
   row0].

(** Three products: "P1" is low on stock, costly and slow; "P2" is normal;
    "P3" is overstocked, costly and slow.  "P1" and "P3" expire within a
    day of [noon]. *)
Definition busy : DataFrame :=
  [mkRow "P1" "W1" "Bob" "Toys" 3 10 6000 10 5 (12345 # 10)
         1793800000000000000%Z 0 None;
   mkRow "P2" "W2" "Ann" "Toys" 3 10 4000 10 50 0
         4102444800000000000%Z 0 None;
   mkRow "P3" "W2" "Ann" "Toys" 3 10 7000 49 200 2000
         1793800000000000000%Z 0 None].

(** *** Vocabulary of the further properties *)

(** A row's value passes a select box: the box shows "All", or shows the
    value. *)
Definition selected_ok (selected value : string) : bool :=
  String.eqb selected "All" || String.eqb value selected.

(** The frames a rendered page hands to its charts and tables. *)
Definition frames_of_page (page : Page) : list DataFrame :=
  match page with
  | OverviewPage o => [ov_doi_chart o; ov_overstock_chart o; ov_table o]
  | ExplorerPage e =>
      [ex_scatter_chart e; ex_avg_doi_chart e; ex_cat_chart e;
       ex_revenue_chart e; ex_doi_cost_chart e]
      ++ match ex_expiry_chart e with Some soon => [soon] | None => [] end
  | NoPage => []
  end.

(** The three labels from the scarcest to the most plentiful. *)
Definition status_rank (label : string) : nat :=
  if String.eqb label LOW then 0
  else if String.eqb label NORMAL then 1
  else 2.

(** The Standard Library's reference for IEEE 754 binary64, to check
    [round64] and [kahan_step] against: the float64 of an integer, the
    rational a finite float64 denotes, and the compensated sum written with
    the reference operations. *)
Definition ref_of_Z (z : Z) : SpecFloat.spec_float :=
  SpecFloat.binary_normalize 53 1024 z 0 false.

Definition ref_to_Q (x : SpecFloat.spec_float) : option Q :=
  match x with
  | SpecFloat.S754_zero _ => Some 0
  | SpecFloat.S754_finite s m e =>
      let v := Qred (inject_Z (Zpos m) * pow2 e) in
      Some (if s then - v else v)
  | _ => None
  end.

Definition ref_kahan_step (st : SpecFloat.spec_float * SpecFloat.spec_float)
  (val : SpecFloat.spec_float) : SpecFloat.spec_float * SpecFloat.spec_float :=
  let y := SpecFloat.SFsub 53 1024 val (snd st) in
  let t := SpecFloat.SFadd 53 1024 (fst st) y in
  (t, SpecFloat.SFsub 53 1024 (SpecFloat.SFsub 53 1024 t (fst st)) y).



(* ================================================================= *)
(** * Properties *)

(** ** Worked instances *)

Example classify_5_50_200 :
  get_doi_status [5; 50; 200] = [LOW; NORMAL; OVERSTOCK].
Proof. reflexivity. Qed.

Example high_cost_low_sales_busy :
  column Product (high_cost_low_sales_df busy) = ["P1"; "P3"].
Proof. reflexivity. Qed.

Example groupby_sum_busy :
  groupby_sum Buyer OverstockInventoryValue (overstock_df busy)
  = [("Ann", 2000); ("Bob", 2469 # 2)].
Proof. reflexivity. Qed.

Example round64_samples :
  round64 (1 # 10) = 3602879701896397 # 36028797018963968 /\
  round64 10000000000000001 = 10000000000000000 /\
  round64 9007199254740993 = 9007199254740992 /\
  round64 (2469 # 2) = 2469 # 2 /\
  fadd 10000000000000000 1 = 10000000000000000.
Proof. vm_compute. repeat split. Qed.

(** The same values from the Standard Library's reference operations. *)
Example round64_agrees_with_reference :
  ref_to_Q (SpecFloat.SFdiv 53 1024 (ref_of_Z 1) (ref_of_Z 10))
  = Some (round64 (1 # 10)) /\
  ref_to_Q (SpecFloat.SFdiv 53 1024 (ref_of_Z 113) (ref_of_Z 100))
  = Some (round64 (113 # 100)) /\
  ref_to_Q (ref_of_Z 9007199254740993) = Some (round64 9007199254740993) /\
  ref_to_Q (SpecFloat.SFadd 53 1024 (ref_of_Z 10000000000000000) (ref_of_Z 1))
  = Some (fadd 10000000000000000 1) /\
  ref_to_Q (SpecFloat.SFsub 53 1024
              (SpecFloat.SFdiv 53 1024 (ref_of_Z 1) (ref_of_Z 10))
              (SpecFloat.SFdiv 53 1024 (ref_of_Z 3) (ref_of_Z 10)))
  = Some (fsub (round64 (1 # 10)) (round64 (3 # 10))) /\
  ref_to_Q (fst (fold_left ref_kahan_step
                   (map (fun n => SpecFloat.SFdiv 53 1024 (ref_of_Z n)
                                                   (ref_of_Z 100))
                        [113; 118; 119]%Z)
                   (ref_of_Z 0, ref_of_Z 0)))
  = Some (float_sum (map round64 [113 # 100; 118 # 100; 119 # 100])).
Proof. vm_compute. repeat split. Qed.

(** 1.13 + 1.18 + 1.19 as float64: 3.5 when compensated, as the grouped
    sum is, and 3.4999999999999996 when added one after the other. *)
Example float_sum_samples :
  float_sum (map round64 [113 # 100; 118 # 100; 119 # 100]) = 7 # 2 /\
  fold_left fadd (map round64 [113 # 100; 118 # 100; 119 # 100]) 0
  = 7881299347898367 # 2251799813685248 /\
  float_sum [10000000000000000; 1] = 10000000000000000 /\
  float_sum [1; 10000000000000000; 1] = 10000000000000000.
Proof. vm_compute. repeat split. Qed.

Example format_comma_0f_samples :
  format_comma_0f (12345675 # 10) = "1,234,568" /\
  format_comma_0f (5 # 2) = "2" /\ format_comma_0f (7 # 2) = "4" /\
  format_comma_0f 999 = "999" /\ format_comma_0f 1000 = "1,000" /\
  format_comma_0f 10000000000000001 = "10,000,000,000,000,000".
Proof. repeat split. Qed.

Example insight_lines_busy :
  insight_lines (fun i => i) noon busy
  = Ok ["<li><b>🔻 1 products</b> are critically low on inventory (DOI < 10).</li>";
        "<li><b>📦 Buyer Ann</b> is carrying <b>$2,000</b> in overstocked items.</li>";
        "<li><b>⚠️ High holding cost</b> with low movement detected in SKUs: P3, P1.</li>";
        "<li><b>⏳ Expiring soon</b>: P3, P1 within 30 days.</li>"].
Proof. vm_compute. reflexivity. Qed.

(** ** Comparisons *)

Lemma Qltb_lt (x y : Q) : Qltb x y = true <-> x < y.
Proof. unfold Qltb, Qlt. apply Z.ltb_lt. Qed.

Lemma Qltb_ge (x y : Q) : Qltb x y = false <-> y <= x.
Proof. unfold Qltb, Qle. apply Z.ltb_ge. Qed.

(** ** Boolean indexing *)

(** Indexing a frame with a mask computed row by row keeps exactly the rows
    the test accepts, in their order. *)
Lemma loc_mask_map (p : Row -> bool) (df : DataFrame) :
  loc_mask df (map p df) = filter p df.
Proof.
  induction df as [|r df IH]; simpl; [reflexivity|].
  rewrite IH. reflexivity.
Qed.

Lemma mask_and_map {A B : Type} (p : A -> bool) (q : B -> bool)
  (f : Row -> A) (g : Row -> B) (df : DataFrame) :
  mask_and (map p (column f df)) (map q (column g df))
  = map (fun r => p (f r) && q (g r)) df.
Proof.
  unfold column. induction df as [|r df IH]; simpl; [reflexivity|].
  now rewrite IH.
Qed.

Lemma low_doi_df_filter (df : DataFrame) :
  low_doi_df df = filter (fun r => Qltb (DOI r) 10) df.
Proof.
  unfold low_doi_df, lt_scalar, column. rewrite map_map. apply loc_mask_map.
Qed.

Lemma overstock_df_filter (df : DataFrame) :
  overstock_df df = filter (fun r => Qltb 0 (OverstockInventoryValue r)) df.
Proof.
  unfold overstock_df, gt_scalar, column. rewrite map_map. apply loc_mask_map.
Qed.

Lemma expiring_df_filter (today : Timestamp) (df : DataFrame) :
  expiring_df today df
  = filter (fun r => (ExpiryDate r <? today + Timedelta_days 30)%Z) df.
Proof.
  unfold expiring_df, lt_scalar_ts, column. rewrite map_map. apply loc_mask_map.
Qed.

Lemma expiring_soon_filter (today : Timestamp) (df : DataFrame) :
  expiring_soon today df
  = filter (fun r => (ExpiryDate r <? today + Timedelta_days 90)%Z) df.
Proof.
  unfold expiring_soon, lt_scalar_ts, column. rewrite map_map. apply loc_mask_map.
Qed.

Lemma high_cost_low_sales_df_filter (df : DataFrame) :
  high_cost_low_sales_df df
  = filter (fun r => Qltb 5000 (TotalInventoryCost r)
                     && (Last12MoQtySold r <? 50)%Z) df.
Proof.
  unfold high_cost_low_sales_df, gt_scalar, lt_scalar_int.
  rewrite mask_and_map. apply loc_mask_map.
Qed.

Lemma keep_equal_filter (col : Row -> string) (selected : string)
  (df : DataFrame) :
  selected <> "All" ->
  keep_equal col selected df = filter (fun r => String.eqb (col r) selected) df.
Proof.
  intro H. unfold keep_equal.
  apply String.eqb_neq in H. rewrite H. simpl.
  unfold eq_scalar_str, column. rewrite map_map. apply loc_mask_map.
Qed.

Lemma filter_idem {A : Type} (p : A -> bool) (l : list A) :
  filter p (filter p l) = filter p l.
Proof.
  induction l as [|x l IH]; simpl; [reflexivity|].
  destruct (p x) eqn:E; simpl; [rewrite E, IH|]; auto.
Qed.

Lemma filter_subframe (p : Row -> bool) (df : DataFrame) :
  subframe (filter p df) df.
Proof.
  induction df as [|r df IH]; simpl; [constructor|].
  destruct (p r); constructor; assumption.
Qed.

(** ** The classifier *)

Lemma labels_distinct :
  LOW <> OVERSTOCK /\ LOW <> NORMAL /\ OVERSTOCK <> NORMAL.
Proof. repeat split; discriminate. Qed.

Lemma get_doi_status_acc (dois : list Q) (acc : list string) :
  fold_left (fun status doi => status ++ [doi_label doi]) dois acc
  = acc ++ map doi_label dois.
Proof.
  revert acc. induction dois as [|d dois IH]; intro acc; simpl.
  - now rewrite app_nil_r.
  - rewrite IH, <- app_assoc. reflexivity.
Qed.

Lemma get_doi_status_map (dois : list Q) :
  get_doi_status dois = map doi_label dois.
Proof. unfold get_doi_status. now rewrite get_doi_status_acc. Qed.

Lemma doi_label_cases (w : Q) :
  (w < 10 /\ doi_label w = LOW) \/
  (10 <= w /\ 180 < w /\ doi_label w = OVERSTOCK) \/
  (10 <= w /\ w <= 180 /\ doi_label w = NORMAL).
Proof.
  unfold doi_label.
  destruct (Qltb w 10) eqn:E1.
  - left. split; [now apply Qltb_lt | reflexivity].
  - apply Qltb_ge in E1. right.
    destruct (Qltb 180 w) eqn:E2.
    + left. apply Qltb_lt in E2. auto.
    + right. apply Qltb_ge in E2. auto.
Qed.

Lemma doi_label_low (v : Q) : doi_label v = LOW <-> v < 10.
Proof.
  destruct labels_distinct as (D1 & D2 & _).
  split; intro H.
  - destruct (doi_label_cases v) as [[? _]|[(_ & _ & E)|(_ & _ & E)]];
      [assumption | congruence | congruence].
  - destruct (doi_label_cases v) as [[_ E]|[(L & _ & _)|(L & _ & _)]];
      [assumption | | ]; exfalso; revert H; apply Qle_not_lt; assumption.
Qed.

(** C1.  The classifier is total and three-valued: for every value [v] the
    label is "Low" exactly when [v < 10], "Overstock" exactly when
    [v > 180], and "Normal" exactly when [10 <= v <= 180]; the three
    labels are distinct, so each value gets exactly one.  In particular 10
    and 180 are "Normal" and every negative value is "Low".  The list
    version labels each value independently, in order. *)
Theorem C1_classifier_total (v : Q) (dois : list Q) :
  (doi_label v = LOW <-> v < 10) /\
  (doi_label v = OVERSTOCK <-> 180 < v) /\
  (doi_label v = NORMAL <-> 10 <= v /\ v <= 180) /\
  (doi_label v = LOW \/ doi_label v = OVERSTOCK \/ doi_label v = NORMAL) /\
  (LOW <> OVERSTOCK /\ LOW <> NORMAL /\ OVERSTOCK <> NORMAL) /\
  doi_label 10 = NORMAL /\ doi_label 180 = NORMAL /\
  (forall w, w < 0 -> doi_label w = LOW) /\
  get_doi_status dois = map doi_label dois.
Proof.
  pose proof doi_label_cases as Hcase.
  destruct labels_distinct as (D1 & D2 & D3).
  assert (H10 : ~ 180 < 10) by (intro H; discriminate H).
  split; [|split; [|split; [|split; [|split; [|split; [|split; [|split]]]]]]].
  - split; intro H.
    + destruct (Hcase v) as [[? _]|[(_ & _ & E)|(_ & _ & E)]];
        [assumption | congruence | congruence].
    + destruct (Hcase v) as [[_ E]|[(L & _ & _)|(L & _ & _)]];
        [assumption | | ]; exfalso; revert H; apply Qle_not_lt; assumption.
  - split; intro H.
    + destruct (Hcase v) as [[_ E]|[(_ & ? & _)|(_ & _ & E)]];
        [congruence | assumption | congruence].
    + destruct (Hcase v) as [[L _]|[(_ & _ & E)|(_ & L & _)]];
        [ | assumption | ].
      * exfalso. apply H10. eapply Qlt_trans; eassumption.
      * exfalso. revert H. apply Qle_not_lt. assumption.
  - split.
    + intro H. destruct (Hcase v) as [[_ E]|[(_ & _ & E)|(? & ? & _)]];
        [congruence | congruence | split; assumption].
    + intros [H1 H2].
      destruct (Hcase v) as [[L _]|[(_ & L & _)|(_ & _ & E)]];
        [ | | assumption]; exfalso; revert L; apply Qle_not_lt; assumption.
  - destruct (Hcase v) as [[_ E]|[(_ & _ & E)|(_ & _ & E)]]; auto.
  - auto.
  - reflexivity.
  - reflexivity.
  - intros w Hw. destruct (Hcase w) as [[_ E]|[(L & _ & _)|(L & _ & _)]];
      [assumption | | ]; exfalso; revert Hw; apply Qle_not_lt;
      (eapply Qle_trans; [|exact L]); discriminate.
  - apply get_doi_status_map.
Qed.

(** ** Rule filters *)

(** C8.  For a fixed table, the Low-DOI, Overstock and
    High-cost-low-sales filters are idempotent: applied to their own
    output they return that output unchanged. *)
Theorem C8_filters_idempotent (df : DataFrame) :
  low_doi_df (low_doi_df df) = low_doi_df df /\
  overstock_df (overstock_df df) = overstock_df df /\
  high_cost_low_sales_df (high_cost_low_sales_df df)
  = high_cost_low_sales_df df.
Proof.
  rewrite !low_doi_df_filter, !overstock_df_filter,
    !high_cost_low_sales_df_filter.
  repeat split; apply filter_idem.
Qed.

(** C6.  With [today] the reading of the wall clock taken when the line
    runs, the Overview's expiring filter keeps exactly the rows (each as
    often as it occurs, in table order) whose ExpiryDate is strictly
    earlier than [today] plus 30 days, and the Explorer's keeps exactly the
    rows of the filtered table whose ExpiryDate is strictly earlier than
    [today] plus 90 days. *)
Theorem C6_expiring_horizons (today : Timestamp) (df fdf : DataFrame) :
  (forall r, In r (expiring_df today df) <->
             In r df /\ (ExpiryDate r < today + 30 * 86400000000000)%Z) /\
  subframe (expiring_df today df) df /\
  expiring_df today df
  = filter (fun r => (ExpiryDate r <? today + 2592000000000000)%Z) df /\
  (forall r, In r (expiring_soon today fdf) <->
             In r fdf /\ (ExpiryDate r < today + 90 * 86400000000000)%Z) /\
  subframe (expiring_soon today fdf) fdf /\
  expiring_soon today fdf
  = filter (fun r => (ExpiryDate r <? today + 7776000000000000)%Z) fdf.
Proof.
  rewrite expiring_df_filter, expiring_soon_filter.
  unfold Timedelta_days.
  repeat split; try apply filter_subframe.
  - apply filter_In in H. tauto.
  - apply filter_In in H. destruct H as [_ H]. now apply Z.ltb_lt in H.
  - intros [H1 H2]. apply filter_In. split; [assumption|].
    now apply Z.ltb_lt.
  - apply filter_In in H. tauto.
  - apply filter_In in H. destruct H as [_ H]. now apply Z.ltb_lt in H.
  - intros [H1 H2]. apply filter_In. split; [assumption|].
    now apply Z.ltb_lt.
Qed.

(** ** The status column *)

Lemma assign_classified (raw : DataFrame) :
  assign_DOI_Status raw (get_doi_status (column DOI raw)) = Ok (classified raw).
Proof.
  rewrite get_doi_status_map. unfold column, classified.
  induction raw as [|r raw IH]; simpl; [reflexivity|].
  rewrite IH. reflexivity.
Qed.

Lemma classified_DOI (raw : DataFrame) (r : Row) :
  In r (classified raw) -> DOI_Status r = Some (doi_label (DOI r)).
Proof.
  unfold classified. rewrite in_map_iff. intros (r0 & <- & _). reflexivity.
Qed.

(** ** Sampling *)

Lemma pick_some {A : Type} (i : nat) (l : list A) :
  (i < List.length l)%nat ->
  exists x rest, pick i l = Some (x, rest) /\ Permutation (x :: rest) l.
Proof.
  revert i. induction l as [|y l IH]; intros i Hi; simpl in *; [lia|].
  destruct i as [|i].
  - exists y, l. split; [reflexivity | apply Permutation_refl].
  - destruct (IH i) as (x & rest & E & P); [lia|].
    simpl. rewrite E. exists x, (y :: rest). split; [reflexivity|].
    eapply perm_trans; [apply perm_swap|]. now constructor.
Qed.

Lemma draw_permutation {A : Type} (rs : RandomState) (n : nat) (l : list A) :
  List.length l = n -> Permutation (draw rs n l) l.
Proof.
  revert l. induction n as [|n IH]; intros l Hl; simpl.
  - destruct l; [constructor | discriminate].
  - destruct (pick_some (rs n mod List.length l)%nat l) as (x & rest & E & P).
    { apply Nat.mod_upper_bound. lia. }
    rewrite E. eapply perm_trans; [|exact P].
    constructor. apply IH.
    apply Permutation_length in P. simpl in P. lia.
Qed.

Lemma permutation_perm {A : Type} (rs : RandomState) (l : list A) :
  Permutation (permutation rs l) l.
Proof. apply draw_permutation. reflexivity. Qed.

Lemma in_firstn {A : Type} (n : nat) (l : list A) (x : A) :
  In x (firstn n l) -> In x l.
Proof.
  intro H. rewrite <- (firstn_skipn n l). apply in_or_app. now left.
Qed.

(** With the size capped by the population, [sample] returns, and returns
    exactly that many rows, all taken from the population. *)
Lemma sample_capped (rs : RandomState) (K : nat) (df : DataFrame) :
  exists s, sample rs (Nat.min K (List.length df)) df = Ok s /\
            List.length s = Nat.min K (List.length df) /\
            (forall r, In r s -> In r df).
Proof.
  unfold sample.
  assert (H : (Nat.min K (List.length df) <=? List.length df)%nat = true)
    by (apply Nat.leb_le; lia).
  rewrite H. eexists. split; [reflexivity|]. split.
  - rewrite length_firstn.
    rewrite (Permutation_length (permutation_perm rs df)). lia.
  - intros r Hr. apply (Permutation_in _ (permutation_perm rs df)).
    eapply in_firstn; eassumption.
Qed.

Lemma sample_products (rs : RandomState) (df : DataFrame) :
  exists l,
    (s <- sample rs (Nat.min 2 (List.length df)) df ;; Ok (column Product s))
    = Ok l /\
    List.length l = Nat.min 2 (List.length df) /\
    (forall p, In p l -> exists r, In r df /\ Product r = p).
Proof.
  destruct (sample_capped rs 2 df) as (s & E & L & I).
  rewrite E. simpl. eexists. split; [reflexivity|]. split.
  - unfold column. now rewrite length_map.
  - intros p Hp. unfold column in Hp. apply in_map_iff in Hp.
    destruct Hp as (r & <- & Hr). eauto.
Qed.

Lemma sample_products_empty (rs : RandomState) (df : DataFrame) :
  exists l,
    (s <- sample rs (Nat.min 2 (List.length df)) df ;; Ok (column Product s))
    = Ok l /\ (df = [] -> l = []).
Proof.
  destruct (sample_products rs df) as (l & E & L & _).
  exists l. split; [exact E|]. intros ->. now destruct l.
Qed.

(** C5.  Sampling with the size capped at [min(K, len)] never raises and
    returns at most [min(K, len)] rows, all of the subset: none from an
    empty subset and, for a positive [K], at least one from a non-empty
    one.  For the two samples of the script, where [K] is 2, the list of
    products is empty exactly when the subset is. *)
Theorem C5_sampling_bounds (rs : RandomState) (K : nat) (subset : DataFrame) :
  (exists s,
      sample rs (Nat.min K (List.length subset)) subset = Ok s /\
      (List.length s <= Nat.min K (List.length subset))%nat /\
      (forall r, In r s -> In r subset) /\
      (subset = [] -> s = []) /\
      ((0 < K)%nat -> s = [] -> subset = [])) /\
  (exists l,
      risky_sample rs subset = Ok l /\
      (List.length l <= Nat.min 2 (List.length subset))%nat /\
      (l = [] <-> subset = [])) /\
  (exists l,
      expiring_sample rs subset = Ok l /\
      (List.length l <= Nat.min 2 (List.length subset))%nat /\
      (l = [] <-> subset = [])).
Proof.
  assert (Hz : forall l : list string,
    List.length l = Nat.min 2 (List.length subset) ->
    (l = [] <-> subset = [])).
  { intros l Hl.
    destruct l as [|p l], subset as [|r subset]; simpl in Hl;
      split; intro H; try reflexivity; try discriminate. }
  split; [|split].
  - destruct (sample_capped rs K subset) as (s & E & L & I).
    exists s. split; [assumption|]. split; [lia|]. split; [assumption|].
    split.
    + intros ->. rewrite Nat.min_0_r in L. now destruct s.
    + intros HK ->. destruct subset as [|r subset]; [reflexivity|].
      simpl in L. lia.
  - destruct (sample_products rs subset) as (l & E & L & _).
    exists l. repeat split; try (apply Hz; assumption); try lia; assumption.
  - destruct (sample_products rs subset) as (l & E & L & _).
    exists l. repeat split; try (apply Hz; assumption); try lia; assumption.
Qed.

(** ** Grouping and the top buyer *)

Lemma compare_refl (a : string) : String.compare a a = Eq.
Proof. now apply OrderedTypeEx.String_as_OT.cmp_eq. Qed.

Lemma compare_lt_trans (a b c : string) :
  String.compare a b = Lt -> String.compare b c = Lt ->
  String.compare a c = Lt.
Proof.
  intros H1 H2.
  apply OrderedTypeEx.String_as_OT.cmp_lt in H1, H2.
  apply OrderedTypeEx.String_as_OT.cmp_lt.
  eapply OrderedTypeEx.String_as_OT.lt_trans; eassumption.
Qed.

Lemma compare_gt_lt (a b : string) :
  String.compare a b = Gt -> String.compare b a = Lt.
Proof.
  intro H. rewrite String.compare_antisym, H. reflexivity.
Qed.

Lemma eqb_compare_lt (a b : string) :
  String.compare a b = Lt -> String.eqb a b = false /\ String.eqb b a = false.
Proof.
  intro H. split; apply String.eqb_neq; intro E; subst;
    rewrite compare_refl in H; discriminate.
Qed.

(** Keys all above [k]: the series has no entry at [k]. *)
Lemma series_get_above {V : Type} (k : string) (s : list (string * V)) :
  Forall (fun e => String.compare k (fst e) = Lt) s -> series_get k s = None.
Proof.
  induction 1 as [|[k' v] s H _ IH]; simpl; [reflexivity|].
  simpl in H. apply eqb_compare_lt in H. destruct H as [_ H].
  now rewrite H.
Qed.



Lemma add_to_group_spec (k : string) (v : Q) (s : list (string * (Q * Q))) :
  keys_ascending s ->
  keys_ascending (add_to_group k v s) /\
  (forall k0, String.compare k0 k = Lt ->
              Forall (fun e => String.compare k0 (fst e) = Lt) s ->
              Forall (fun e => String.compare k0 (fst e) = Lt)
                     (add_to_group k v s)) /\
  series_get k (add_to_group k v s)
  = Some (kahan_step (match series_get k s with
                      | Some st => st
                      | None => (0, 0)
                      end) v) /\
  (forall k', k' <> k ->
              series_get k' (add_to_group k v s) = series_get k' s).
Proof.
  unfold keys_ascending.
  induction 1 as [|[k1 v1] s Hs IH Hall]; simpl.
  - repeat split.
    + repeat constructor.
    + intros k0 H _. repeat constructor. exact H.
    + now rewrite String.eqb_refl.
    + intros k' Hk'. apply String.eqb_neq in Hk'.
      rewrite String.eqb_sym. now rewrite Hk'.
  - destruct IH as (IH1 & IH2 & IH3 & IH4).
    destruct (String.compare k k1) eqn:C.
    + apply OrderedTypeEx.String_as_OT.cmp_eq in C. subst k1.
      repeat split.
      * constructor; assumption.
      * intros k0 H F. inversion F; subst. constructor; assumption.
      * simpl. now rewrite String.eqb_refl.
      * intros k' Hk'. simpl. apply String.eqb_neq in Hk'.
        rewrite String.eqb_sym, Hk'. reflexivity.
    + assert (Hk : Forall (fun e => String.compare k (fst e) = Lt)
                          ((k1, v1) :: s)).
      { constructor; [exact C|].
        eapply Forall_impl; [|exact Hall]. intros e He.
        eapply compare_lt_trans; eassumption. }
      repeat split.
      * constructor; [constructor; assumption | exact Hk].
      * intros k0 H F. constructor; assumption.
      * simpl. rewrite String.eqb_refl.
        destruct (eqb_compare_lt _ _ C) as [_ ->].
        inversion Hk; subst. now rewrite series_get_above.
      * intros k' Hk'. simpl. apply String.eqb_neq in Hk'.
        rewrite String.eqb_sym, Hk'. reflexivity.
    + apply compare_gt_lt in C.
      repeat split.
      * constructor; [assumption|]. apply IH2; assumption.
      * intros k0 H F. inversion F; subst.
        constructor; [assumption|]. apply IH2; assumption.
      * simpl. destruct (eqb_compare_lt _ _ C) as [-> _]. exact IH3.
      * intros k' Hk'. simpl. rewrite (IH4 k' Hk'). reflexivity.
Qed.

Lemma group_values_app (key : Row -> string) (col : Row -> Q) (k : string)
  (df : DataFrame) (r : Row) :
  group_values key col k (df ++ [r])
  = group_values key col k df
    ++ (if String.eqb (key r) k then [round64 (col r)] else []).
Proof.
  unfold group_values. rewrite filter_app, map_app. simpl.
  destruct (String.eqb (key r) k); reflexivity.
Qed.

Lemma group_values_nil (key : Row -> string) (col : Row -> Q) (k : string)
  (df : DataFrame) :
  (forall r, In r df -> key r <> k) -> group_values key col k df = [].
Proof.
  unfold group_values. induction df as [|x df IH]; intro H; [reflexivity|].
  simpl. destruct (String.eqb (key x) k) eqn:E.
  - apply String.eqb_eq in E. exfalso. apply (H x); [now left | exact E].
  - apply IH. intros r Hr. apply H. now right.
Qed.

Lemma group_states_app (key : Row -> string) (col : Row -> Q)
  (df : DataFrame) (r : Row) :
  group_states key col (df ++ [r])
  = add_to_group (key r) (round64 (col r)) (group_states key col df).
Proof. unfold group_states. now rewrite fold_left_app. Qed.

(** The state every group has reached once the rows are read: that of a
    compensated sum run over the group's own values alone. *)
Lemma group_states_spec (key : Row -> string) (col : Row -> Q)
  (df : DataFrame) :
  keys_ascending (group_states key col df) /\
  forall k,
    match series_get k (group_states key col df) with
    | Some st => st = fold_left kahan_step (group_values key col k df) (0, 0)
                 /\ exists r, In r df /\ key r = k
    | None => forall r, In r df -> key r <> k
    end.
Proof.
  induction df as [|r df IH] using rev_ind.
  - split; [constructor|]. intros k. simpl. tauto.
  - destruct IH as [IHs IHg]. rewrite group_states_app.
    destruct (add_to_group_spec (key r) (round64 (col r)) _ IHs)
      as (A1 & _ & A3 & A4).
    split; [exact A1|]. intro k.
    destruct (string_dec k (key r)) as [->|Hk].
    + rewrite A3. specialize (IHg (key r)). split.
      * rewrite group_values_app, String.eqb_refl, fold_left_app. simpl.
        destruct (series_get (key r) (group_states key col df)) as [st|].
        -- destruct IHg as [-> _]. reflexivity.
        -- now rewrite (group_values_nil key col (key r) df IHg).
      * exists r. split; [apply in_or_app; right; now left | reflexivity].
    + rewrite (A4 k Hk). specialize (IHg k).
      assert (E : String.eqb (key r) k = false)
        by (apply String.eqb_neq; congruence).
      destruct (series_get k (group_states key col df)) as [st|].
      * destruct IHg as [Hst (r0 & Hr0 & Hk0)]. split.
        -- now rewrite group_values_app, E, app_nil_r.
        -- exists r0. split; [apply in_or_app; now left | assumption].
      * intros r0 Hr0. apply in_app_or in Hr0. destruct Hr0 as [Hr0|[<-|[]]].
        -- now apply IHg.
        -- congruence.
Qed.

Lemma keys_ascending_sums (s : list (string * (Q * Q))) :
  keys_ascending s ->
  keys_ascending (map (fun e => (fst e, fst (snd e))) s).
Proof.
  unfold keys_ascending.
  induction 1 as [|e s Hs IH Hall]; simpl; constructor; [exact IH|].
  rewrite Forall_map. exact Hall.
Qed.

Lemma series_get_sums (k : string) (s : list (string * (Q * Q))) :
  series_get k (map (fun e => (fst e, fst (snd e))) s)
  = option_map fst (series_get k s).
Proof.
  induction s as [|[k' st] s IH]; simpl; [reflexivity|].
  destruct (String.eqb k' k); [reflexivity | exact IH].
Qed.

(** What [groupby(key)[col].sum()] holds: one entry per key that occurs,
    in ascending key order, carrying the compensated float64 sum of the
    group's values in table order. *)
Lemma groupby_sum_spec (key : Row -> string) (col : Row -> Q) (df : DataFrame) :
  keys_ascending (groupby_sum key col df) /\
  forall k,
    match series_get k (groupby_sum key col df) with
    | Some v => v = float_sum (group_values key col k df)
                /\ exists r, In r df /\ key r = k
    | None => forall r, In r df -> key r <> k
    end.
Proof.
  destruct (group_states_spec key col df) as [Hs Hg].
  change (groupby_sum key col df)
    with (map (fun e : string * (Q * Q) => (fst e, fst (snd e)))
              (group_states key col df)).
  split; [now apply keys_ascending_sums|].
  intro k. rewrite series_get_sums. specialize (Hg k).
  destruct (series_get k (group_states key col df)) as [st|]; simpl.
  - destruct Hg as [-> Hr]. split; [reflexivity | exact Hr].
  - exact Hg.
Qed.

Lemma argmax_from_spec (s : Series) (best : string * Q) :
  In (argmax_from best s) (best :: s) /\
  forall x, In x (best :: s) -> snd x <= snd (argmax_from best s).
Proof.
  revert best. induction s as [|y s IH]; intro best; simpl.
  - split; [now left|]. intros x [<-|[]]. apply Qle_refl.
  - destruct (Qltb (snd best) (snd y)) eqn:E.
    + destruct (IH y) as [I1 I2]. split.
      * right. exact I1.
      * intros x [<-|Hx]; [|now apply I2].
        apply Qltb_lt in E. apply Qlt_le_weak.
        eapply Qlt_le_trans; [exact E|]. apply I2. now left.
    + destruct (IH best) as [I1 I2]. split.
      * destruct I1 as [I1|I1]; [now left | right; now right].
      * intros x [<-|[<-|Hx]].
        -- apply I2. now left.
        -- apply Qltb_ge in E. eapply Qle_trans; [exact E|].
           apply I2. now left.
        -- apply I2. now right.
Qed.

Lemma series_max_argmax (x : string * Q) (s : Series) :
  series_max (x :: s) = Some (snd (argmax_from x s)).
Proof.
  simpl. f_equal. revert x. induction s as [|y s IH]; intro x; simpl.
  - reflexivity.
  - destruct (Qltb (snd x) (snd y)); [apply IH|].
    rewrite <- IH. reflexivity.
Qed.

(** For a non-empty subset the two aggregates of lines 66-67 return the
    label and the value of one and the same entry of the grouped sums,
    and that entry is a largest one. *)
Lemma top_buyer_nonempty (r0 : Row) (sub : DataFrame) :
  exists b v,
    top_buyer (r0 :: sub) = Ok (Some b) /\
    top_buyer_val (r0 :: sub) = Some v /\
    In (b, v) (groupby_sum Buyer OverstockInventoryValue (r0 :: sub)) /\
    forall x, In x (groupby_sum Buyer OverstockInventoryValue (r0 :: sub)) ->
              snd x <= v.
Proof.
  unfold top_buyer, top_buyer_val.
  change (negb (empty (r0 :: sub))) with true. cbv iota.
  destruct (groupby_sum_spec Buyer OverstockInventoryValue (r0 :: sub))
    as [_ Hg].
  destruct (groupby_sum Buyer OverstockInventoryValue (r0 :: sub))
    as [|x s] eqn:E.
  - exfalso. specialize (Hg (Buyer r0)). simpl in Hg.
    apply (Hg r0); [now left | reflexivity].
  - rewrite series_max_argmax. unfold idxmax. simpl rbind.
    destruct (argmax_from_spec s x) as [I1 I2].
    exists (fst (argmax_from x s)), (snd (argmax_from x s)).
    rewrite <- surjective_pairing. auto.
Qed.




(** ** Insight lines *)

(** The four templates open differently, so a line tells its rule. *)
Lemma lines_distinct :
  (forall n b v, low_stock_line n <> top_buyer_line b v) /\
  (forall n s, low_stock_line n <> risky_line s) /\
  (forall n s, low_stock_line n <> expiring_line s) /\
  (forall b v s, top_buyer_line b v <> risky_line s) /\
  (forall b v s, top_buyer_line b v <> expiring_line s) /\
  (forall s s', risky_line s <> expiring_line s').
Proof.
  unfold low_stock_line, top_buyer_line, risky_line, expiring_line.
  repeat split; intros; cbn [String.concat String.append]; discriminate.
Qed.

(** The run of lines 52-78 never raises; its result is the low-stock line
    followed by the lines of the three guarded rules. *)
Lemma insight_lines_shape (rs : RandomState) (today : Timestamp)
  (df : DataFrame) :
  exists buyer risky soon,
    insight_lines rs today df
    = Ok ([low_stock_line (List.length (low_doi_df df))]
          ++ (if truthy_str buyer
              then [top_buyer_line buyer (top_buyer_val (overstock_df df))]
              else [])
          ++ (if truthy_list risky then [risky_line risky] else [])
          ++ (if truthy_list soon then [expiring_line soon] else [])) /\
    (overstock_df df = [] -> buyer = None) /\
    (high_cost_low_sales_df df = [] -> risky = []) /\
    (expiring_df today df = [] -> soon = []).
Proof.
  unfold insight_lines.
  assert (Hb : exists buyer, top_buyer (overstock_df df) = Ok buyer /\
                 (overstock_df df = [] -> buyer = None)).
  { destruct (overstock_df df) as [|r0 sub].
    - exists None. split; reflexivity.
    - destruct (top_buyer_nonempty r0 sub) as (b & v & E & _).
      exists (Some b). split; [exact E | discriminate]. }
  destruct Hb as (buyer & Eb & Hb).
  destruct (sample_products_empty rs (high_cost_low_sales_df df))
    as (risky & Er & Hr).
  destruct (sample_products_empty
              (fun i => rs (i + List.length (high_cost_low_sales_df df))%nat)
              (expiring_df today df)) as (soon & Es & Hs).
  exists buyer, risky, soon.
  unfold risky_sample, expiring_sample. rewrite Eb, Er, Es. simpl rbind.
  split; [|auto].
  unfold shape0.
  destruct (truthy_str buyer), (truthy_list risky), (truthy_list soon);
    reflexivity.
Qed.

(** The claim of C3 fails on the code for the low-stock rule: on a table
    with no low-DOI row the composer still emits the low-stock line, with
    a count of 0. *)
Lemma C3_zero_products_line_emitted :
  low_doi_df [row0] = [] /\
  insight_lines (fun _ => 0%nat) noon [row0]
  = Ok ["<li><b>🔻 0 products</b> are critically low on inventory (DOI < 10).</li>"] /\
  In (low_stock_line 0) ["<li><b>🔻 0 products</b> are critically low on inventory (DOI < 10).</li>"].
Proof.
  split; [reflexivity|]. split; [vm_compute; reflexivity|].
  left. reflexivity.
Qed.

(** C3, amended.  The composer never fails.  Its first line is always the
    low-stock line, carrying the number of low-DOI rows (also when that
    number is 0).  For the three other rules it emits no line when the
    rule's input is empty: no top-buyer line when the overstock subset is
    empty, no high-holding-cost line when the high-cost-low-sales subset is
    empty, no expiring line when the expiring subset is empty. *)
Theorem C3_insight_lines_skip_empty (rs : RandomState) (today : Timestamp)
  (df : DataFrame) :
  exists lines,
    insight_lines rs today df = Ok lines /\
    hd_error lines = Some (low_stock_line (List.length (low_doi_df df))) /\
    (forall n, In (low_stock_line n) lines ->
               low_stock_line n
               = low_stock_line (List.length (low_doi_df df))) /\
    (overstock_df df = [] -> forall b v, ~ In (top_buyer_line b v) lines) /\
    (high_cost_low_sales_df df = [] -> forall s, ~ In (risky_line s) lines) /\
    (expiring_df today df = [] -> forall s, ~ In (expiring_line s) lines).
Proof.
  destruct (insight_lines_shape rs today df)
    as (buyer & risky & soon & E & Hb & Hr & Hs).
  destruct lines_distinct as (D1 & D2 & D3 & D4 & D5 & D6).
  eexists. split; [exact E|]. split; [reflexivity|].
  assert (Hin : forall x,
    In x ([low_stock_line (List.length (low_doi_df df))]
          ++ (if truthy_str buyer
              then [top_buyer_line buyer (top_buyer_val (overstock_df df))]
              else [])
          ++ (if truthy_list risky then [risky_line risky] else [])
          ++ (if truthy_list soon then [expiring_line soon] else [])) ->
    x = low_stock_line (List.length (low_doi_df df)) \/
    (truthy_str buyer = true /\
     x = top_buyer_line buyer (top_buyer_val (overstock_df df))) \/
    (truthy_list risky = true /\ x = risky_line risky) \/
    (truthy_list soon = true /\ x = expiring_line soon)).
  { intros x Hx. simpl in Hx. destruct Hx as [<-|Hx]; [now left|].
    right. apply in_app_or in Hx. destruct Hx as [Hx|Hx].
    { destruct (truthy_str buyer); [|destruct Hx].
      destruct Hx as [<-|[]]. left. auto. }
    right. apply in_app_or in Hx. destruct Hx as [Hx|Hx].
    { destruct (truthy_list risky); [|destruct Hx].
      destruct Hx as [<-|[]]. left. auto. }
    right. destruct (truthy_list soon); [|destruct Hx].
    destruct Hx as [<-|[]]. auto. }
  split; [|split; [|split]].
  - intros n Hn.
    destruct (Hin _ Hn) as [H|[[_ H]|[[_ H]|[_ H]]]];
      [exact H | | | ]; exfalso.
    + exact (D1 _ _ _ H).
    + exact (D2 _ _ H).
    + exact (D3 _ _ H).
  - intros He b v Hl. specialize (Hb He). subst buyer.
    destruct (Hin _ Hl) as [H|[[H _]|[[_ H]|[_ H]]]].
    + exact (D1 _ _ _ (eq_sym H)).
    + discriminate H.
    + exact (D4 _ _ _ H).
    + exact (D5 _ _ _ H).
  - intros He s Hl. specialize (Hr He). subst risky.
    destruct (Hin _ Hl) as [H|[[_ H]|[[H _]|[_ H]]]].
    + exact (D2 _ _ (eq_sym H)).
    + exact (D4 _ _ _ (eq_sym H)).
    + discriminate H.
    + exact (D6 _ _ H).
  - intros He s Hl. specialize (Hs He). subst soon.
    destruct (Hin _ Hl) as [H|[[_ H]|[[_ H]|[H _]]]].
    + exact (D3 _ _ (eq_sym H)).
    + exact (D5 _ _ _ (eq_sym H)).
    + exact (D6 _ _ (eq_sym H)).
    + discriminate H.
Qed.

(** ** The Overview as a whole *)

Lemma overview_total (rs : RandomState) (today : Timestamp) (kind : SortKind)
  (df : DataFrame) :
  exists o,
    overview rs today kind df = Ok o /\
    insight_lines rs today df = Ok (ov_insight_lines o) /\
    ov_low_stock o = low_doi_count df /\
    ov_overstock_chart o = top_overstock kind df.
Proof.
  unfold overview.
  destruct (insight_lines_shape rs today df) as (b & r & s & E & _).
  rewrite E. simpl rbind. eexists. split; [reflexivity|].
  simpl. auto.
Qed.

(** C10.  On the frame [df] the script works with after line 48, a row is
    in the Low-DOI subset exactly when its DOI_Status is the "Low" label;
    hence the low-stock count (line 65) and the low-stock KPI (line 96) both
    equal the number of "Low" labels the classifier returned. *)
Theorem C10_low_subset_is_low_status (raw : DataFrame) :
  exists df,
    assign_DOI_Status raw (get_doi_status (column DOI raw)) = Ok df /\
    (forall r, In r (low_doi_df df) <-> In r df /\ DOI_Status r = Some LOW) /\
    low_doi_count df
    = count_occ string_dec (get_doi_status (column DOI raw)) LOW /\
    (forall rs today kind,
        exists o,
          overview rs today kind df = Ok o /\
          ov_low_stock o
          = count_occ string_dec (get_doi_status (column DOI raw)) LOW).
Proof.
  exists (classified raw). split; [apply assign_classified|].
  assert (Hlow : forall v, Qltb v 10 = true <-> doi_label v = LOW).
  { intro v. rewrite Qltb_lt. symmetry.
    apply doi_label_low. }
  assert (Hcount : low_doi_count (classified raw)
    = count_occ string_dec (get_doi_status (column DOI raw)) LOW).
  { unfold low_doi_count, shape0. rewrite low_doi_df_filter.
    rewrite get_doi_status_map. unfold column, classified.
    induction raw as [|r raw IH]; simpl; [reflexivity|].
    destruct (Qltb (DOI r) 10) eqn:E.
    - apply Hlow in E. rewrite E. simpl.
      destruct (string_dec LOW LOW); [|congruence]. now rewrite IH.
    - destruct (string_dec (doi_label (DOI r)) LOW) as [E'|E'].
      + apply Hlow in E'. congruence.
      + apply IH. }
  split; [|split; [exact Hcount|]].
  - intro r. rewrite low_doi_df_filter, filter_In. split.
    + intros [Hin Hlt]. split; [assumption|].
      rewrite (classified_DOI raw r Hin). f_equal. now apply Hlow.
    + intros [Hin Hs]. split; [assumption|].
      rewrite (classified_DOI raw r Hin) in Hs. apply Hlow. congruence.
  - intros rs today kind.
    destruct (overview_total rs today kind (classified raw))
      as (o & Ho & _ & Hlow' & _).
    exists o. split; [exact Ho|]. rewrite Hlow'. exact Hcount.
Qed.

(** ** Sorting algorithms that meet the contract *)

Lemma insert_row_perm (before : Row -> Row -> bool) (x : Row) (l : DataFrame) :
  Permutation (insert_row before x l) (x :: l).
Proof.
  induction l as [|y l IH]; simpl; [apply Permutation_refl|].
  destruct (before x y); [apply Permutation_refl|].
  eapply perm_trans; [|apply perm_swap]. now constructor.
Qed.

Lemma insertion_sort_perm (before : Row -> Row -> bool) (df : DataFrame) :
  Permutation (insertion_sort before df) df.
Proof.
  unfold insertion_sort. induction df as [|x df IH]; simpl; [constructor|].
  eapply perm_trans; [apply insert_row_perm|]. now constructor.
Qed.

Section Insertion.
Variable by_ : Row -> Q.
Variable before : Row -> Row -> bool.
Hypothesis before_true : forall x y, before x y = true -> by_ y <= by_ x.
Hypothesis before_false : forall x y, before x y = false -> by_ x <= by_ y.

Lemma insert_row_descending (x : Row) (l : DataFrame) :
  descending by_ l -> descending by_ (insert_row before x l).
Proof.
  unfold descending.
  induction 1 as [|y l Hl IH Hall]; simpl; [repeat constructor|].
  destruct (before x y) eqn:E.
  - constructor; [constructor; assumption|].
    apply before_true in E. constructor; [exact E|].
    eapply Forall_impl; [|exact Hall]. intros z Hz.
    apply Qle_trans with (by_ y); [exact Hz | exact E].
  - constructor; [exact IH|].
    apply before_false in E.
    rewrite Forall_forall in *. intros z Hz.
    apply (Permutation_in _ (insert_row_perm before x l)) in Hz.
    destruct Hz as [<-|Hz]; [exact E | now apply Hall].
Qed.

Lemma insertion_sort_descending (df : DataFrame) :
  descending by_ (insertion_sort before df).
Proof.
  unfold insertion_sort. induction df as [|x df IH]; simpl.
  - constructor.
  - now apply insert_row_descending.
Qed.
End Insertion.

Lemma kind_stable_sorts : sorts kind_stable.
Proof.
  intros by_ df. split; [apply insertion_sort_perm|].
  apply insertion_sort_descending; intros x y H.
  - apply negb_true_iff in H. now apply Qltb_ge in H.
  - apply negb_false_iff in H. apply Qltb_lt in H. now apply Qlt_le_weak.
Qed.

Lemma kind_reversing_sorts : sorts kind_reversing.
Proof.
  intros by_ df. split; [apply insertion_sort_perm|].
  apply insertion_sort_descending; intros x y H.
  - apply Qltb_lt in H. now apply Qlt_le_weak.
  - now apply Qltb_ge in H.
Qed.

(** ** The Explorer *)

Lemma keep_equal_all (col : Row -> string) (f : DataFrame) :
  keep_equal col "All" f = f.
Proof. reflexivity. Qed.

Lemma keep_equal_in (col : Row -> string) (selected : string)
  (f : DataFrame) (r : Row) :
  In r (keep_equal col selected f) -> In r f.
Proof.
  unfold keep_equal. destruct (negb (selected =? "All")%string); [|auto].
  unfold eq_scalar_str, column. rewrite map_map, loc_mask_map.
  intro H. apply filter_In in H. tauto.
Qed.

Lemma filtered_df_restricted (W sb sc : string) (df : DataFrame) :
  W <> "All" ->
  filtered_df W sb sc df
  = filtered_df "All" sb sc (filter (fun r => String.eqb (Warehouse r) W) df).
Proof.
  intro HW. unfold filtered_df.
  rewrite keep_equal_all, (keep_equal_filter Warehouse W df HW). reflexivity.
Qed.

Lemma filtered_df_rows (W sb sc : string) (df : DataFrame) :
  W <> "All" -> rows_of_warehouse W df (filtered_df W sb sc df).
Proof.
  intros HW r Hr. unfold filtered_df in Hr.
  apply keep_equal_in, keep_equal_in in Hr.
  rewrite (keep_equal_filter Warehouse W df HW) in Hr.
  apply filter_In in Hr. destruct Hr as [Hin E].
  apply String.eqb_eq in E. auto.
Qed.

(** The claim of C7 fails on the code at the value "All": with a
    warehouse of that name in the table, choosing it leaves the table
    unfiltered, and the charts also show the rows of the other warehouses. *)
Lemma C7_all_is_not_a_restriction :
  In "All" (column Warehouse two_warehouses) /\
  In "All" (options Warehouse two_warehouses) /\
  In row0 (ex_scatter_chart
             (explorer noon kind_stable "All" "All" "All" two_warehouses)) /\
  Warehouse row0 <> "All" /\
  ~ (forall W df, rows_of_warehouse W df
       (ex_scatter_chart (explorer noon kind_stable W "All" "All" df))).
Proof.
  split; [left; reflexivity|]. split; [left; reflexivity|].
  split; [right; left; reflexivity|]. split; [discriminate|].
  intro H. destruct (H "All" two_warehouses row0) as [_ E].
  - right. left. reflexivity.
  - discriminate E.
Qed.

(** C7, amended.  For every table and every warehouse value [W] other than
    the literal "All", the Explorer with the Warehouse filter set to [W]
    builds each chart's data only from rows of the table whose Warehouse is
    [W], and the result equals that of the same operations run on the table
    restricted beforehand to those rows.  Each of the three equality
    filters set to "All" leaves the table unchanged. *)
Theorem C7_explorer_restriction (kind : SortKind) (Hkind : sorts kind)
  (today : Timestamp) (W sb sc : string) (df : DataFrame) (HW : W <> "All") :
  let e := explorer today kind W sb sc df in
  let restricted := filter (fun r => String.eqb (Warehouse r) W) df in
  rows_of_warehouse W df (ex_scatter_chart e) /\
  rows_of_warehouse W df (ex_avg_doi_chart e) /\
  rows_of_warehouse W df (ex_cat_chart e) /\
  rows_of_warehouse W df (ex_revenue_chart e) /\
  rows_of_warehouse W df (ex_doi_cost_chart e) /\
  (forall soon, ex_expiry_chart e = Some soon ->
                rows_of_warehouse W df soon) /\
  (forall r, In r restricted <-> In r df /\ Warehouse r = W) /\
  e = explorer today kind "All" sb sc restricted /\
  e = explorer_charts today kind (filtered_df "All" sb sc restricted) /\
  (forall f, keep_equal Warehouse "All" f = f) /\
  (forall f, keep_equal Buyer "All" f = f) /\
  (forall f, keep_equal Category "All" f = f) /\
  filtered_df "All" "All" "All" df = df.
Proof.
  intros e restricted.
  pose proof (filtered_df_rows W sb sc df HW) as Hrows.
  assert (Hrev : rows_of_warehouse W df (ex_revenue_chart e)).
  { intros r Hr. apply Hrows. simpl in Hr. unfold top_revenue, head in Hr.
    apply in_firstn in Hr.
    eapply Permutation_in; [apply (Hkind _12MoDollarsSold)|exact Hr]. }
  assert (Hsoon : forall soon, ex_expiry_chart e = Some soon ->
                               rows_of_warehouse W df soon).
  { intros soon Hs r Hr. apply Hrows. simpl in Hs.
    destruct (negb (empty (expiring_soon today (filtered_df W sb sc df))));
      [|discriminate].
    injection Hs as <-. rewrite expiring_soon_filter in Hr.
    apply filter_In in Hr. tauto. }
  assert (Hres : forall r, In r restricted <-> In r df /\ Warehouse r = W).
  { intro r. unfold restricted. rewrite filter_In, String.eqb_eq. tauto. }
  assert (Heq : e = explorer today kind "All" sb sc restricted).
  { unfold e, restricted, explorer. now rewrite filtered_df_restricted. }
  split; [exact Hrows|]. split; [exact Hrows|]. split; [exact Hrows|].
  split; [exact Hrev|]. split; [exact Hrows|]. split; [exact Hsoon|].
  split; [exact Hres|]. split; [exact Heq|]. split; [exact Heq|].
  repeat split; intros; apply keep_equal_all.
Qed.

Lemma C7_explorer_restriction_witness :
  sorts kind_stable /\ "W1" <> "All" /\
  rows_of_warehouse "W1" two_warehouses
    (ex_revenue_chart (explorer noon kind_stable "W1" "All" "All" two_warehouses)) /\
  explorer noon kind_stable "W1" "All" "All" two_warehouses
  = explorer noon kind_stable "All" "All" "All"
      (filter (fun r => String.eqb (Warehouse r) "W1") two_warehouses).
Proof.
  assert (HW : "W1" <> "All") by discriminate.
  split; [apply kind_stable_sorts|]. split; [exact HW|].
  pose proof (C7_explorer_restriction kind_stable kind_stable_sorts noon
                "W1" "All" "All" two_warehouses HW) as H.
  cbv zeta in H. destruct H as (_ & _ & _ & H4 & _ & _ & _ & H8 & _).
  split; [exact H4 | exact H8].
Defined.

(** ** The script and the source table *)

Lemma classified_columns (raw : DataFrame) :
  List.length (classified raw) = List.length raw /\
  column Product (classified raw) = column Product raw /\
  column Warehouse (classified raw) = column Warehouse raw /\
  column Buyer (classified raw) = column Buyer raw /\
  column Category (classified raw) = column Category raw /\
  column StockQty (classified raw) = column StockQty raw /\
  column AvgLandedCost (classified raw) = column AvgLandedCost raw /\
  column TotalInventoryCost (classified raw) = column TotalInventoryCost raw /\
  column Last12MoQtySold (classified raw) = column Last12MoQtySold raw /\
  column DOI (classified raw) = column DOI raw /\
  column OverstockInventoryValue (classified raw)
  = column OverstockInventoryValue raw /\
  column ExpiryDate (classified raw) = column ExpiryDate raw /\
  column _12MoDollarsSold (classified raw) = column _12MoDollarsSold raw /\
  column DOI_Status (classified raw)
  = map Some (get_doi_status (column DOI raw)).
Proof.
  unfold classified, column. rewrite get_doi_status_map.
  rewrite length_map, !map_map. simpl. repeat split.
Qed.

(** A run of the script never raises, and leaves the global frame as line
    48 made it. *)
Lemma script_runs (inp : Inputs) (raw : DataFrame) :
  exists page, script inp raw = Ok (page, classified raw).
Proof.
  unfold script, app_bind, read, setitem_DOI_Status.
  rewrite assign_classified. simpl rbind. cbv iota beta.
  destruct (view_mode inp =? "📊 Overview")%string.
  - unfold try.
    destruct (overview_total (random_state inp) (today inp) (kind inp)
                (classified raw)) as (o & E & _).
    rewrite E. simpl. eexists. reflexivity.
  - destruct (view_mode inp =? "📈 Visual Explorer")%string;
      eexists; reflexivity.
Qed.

(** C9.  Whatever the view, the selections, the clock and the random
    draws, a run of the script ends normally with the source table holding
    the same rows in the same order, every loaded column unchanged, and the
    DOI_Status column equal to the classifier's labels: the filters of
    both views build their results aside and write nothing back. *)
Theorem C9_source_table_unchanged (inp : Inputs) (raw : DataFrame) :
  exists page df,
    script inp raw = Ok (page, df) /\
    List.length df = List.length raw /\
    column Product df = column Product raw /\
    column Warehouse df = column Warehouse raw /\
    column Buyer df = column Buyer raw /\
    column Category df = column Category raw /\
    column StockQty df = column StockQty raw /\
    column AvgLandedCost df = column AvgLandedCost raw /\
    column TotalInventoryCost df = column TotalInventoryCost raw /\
    column Last12MoQtySold df = column Last12MoQtySold raw /\
    column DOI df = column DOI raw /\
    column OverstockInventoryValue df = column OverstockInventoryValue raw /\
    column ExpiryDate df = column ExpiryDate raw /\
    column _12MoDollarsSold df = column _12MoDollarsSold raw /\
    column DOI_Status df = map Some (get_doi_status (column DOI raw)).
Proof.
  destruct (script_runs inp raw) as (page & E).
  exists page, (classified raw). split; [exact E|].
  apply classified_columns.
Qed.

(* ================================================================= *)
(** * Further properties *)

(** ** What the rule filters keep (lines 52-55) *)

(** Each rule filter keeps, in table order, exactly the rows that meet its
    threshold: DOI below 10; overstock value above 0; total cost above 5000
    together with fewer than 50 units sold. *)
Theorem rule_filters_select (df : DataFrame) :
  (forall r, In r (low_doi_df df) <-> In r df /\ DOI r < 10) /\
  (forall r, In r (overstock_df df) <->
             In r df /\ 0 < OverstockInventoryValue r) /\
  (forall r, In r (high_cost_low_sales_df df) <->
             In r df /\ 5000 < TotalInventoryCost r
             /\ (Last12MoQtySold r < 50)%Z) /\
  subframe (low_doi_df df) df /\
  subframe (overstock_df df) df /\
  subframe (high_cost_low_sales_df df) df.
Proof.
  rewrite low_doi_df_filter, overstock_df_filter,
    high_cost_low_sales_df_filter.
  split; [|split; [|split; [|repeat split; apply filter_subframe]]].
  - intro r. rewrite filter_In, Qltb_lt. tauto.
  - intro r. rewrite filter_In, Qltb_lt. tauto.
  - intro r. rewrite filter_In, andb_true_iff, Qltb_lt, Z.ltb_lt. tauto.
Qed.

(** ** Grouped sums (lines 66-67) *)




(** ** Ties and bounds of the top buyer (lines 66-67) *)






(** ** Sampling without replacement (lines 68-69) *)

(** [sample] returns when asked for no more rows than there are, and then
    gives exactly [n] rows drawn without replacement: together with the
    rows not drawn they make up the frame, so no row is returned more often
    than it occurs.  Asked for more rows than there are, it raises. *)
Theorem sample_without_replacement (rs : RandomState) (n : nat)
  (df : DataFrame) :
  ((n <= List.length df)%nat ->
   exists s rest, sample rs n df = Ok s /\ List.length s = n /\
                  Permutation (s ++ rest) df) /\
  ((List.length df < n)%nat -> exists e, sample rs n df = Raise e).
Proof.
  unfold sample. split; intro H.
  - apply Nat.leb_le in H. rewrite H.
    exists (firstn n (permutation rs df)), (skipn n (permutation rs df)).
    split; [reflexivity|]. split.
    + rewrite length_firstn, (Permutation_length (permutation_perm rs df)).
      apply Nat.leb_le in H. lia.
    + rewrite firstn_skipn. apply permutation_perm.
  - apply Nat.leb_gt in H. rewrite H. eexists. reflexivity.
Qed.

(** ** Which insight lines appear, and in which order (lines 71-78) *)

Lemma insight_lines_exact (rs : RandomState) (today : Timestamp)
  (df : DataFrame) :
  exists buyer risky soon,
    top_buyer (overstock_df df) = Ok buyer /\
    risky_sample rs (high_cost_low_sales_df df) = Ok risky /\
    expiring_sample
      (fun i => rs (i + List.length (high_cost_low_sales_df df))%nat)
      (expiring_df today df) = Ok soon /\
    insight_lines rs today df
    = Ok ([low_stock_line (List.length (low_doi_df df))]
          ++ (if truthy_str buyer
              then [top_buyer_line buyer (top_buyer_val (overstock_df df))]
              else [])
          ++ (if truthy_list risky then [risky_line risky] else [])
          ++ (if truthy_list soon then [expiring_line soon] else [])).
Proof.
  unfold insight_lines.
  assert (Hb : exists buyer, top_buyer (overstock_df df) = Ok buyer).
  { destruct (overstock_df df) as [|r0 sub].
    - exists None. reflexivity.
    - destruct (top_buyer_nonempty r0 sub) as (b & v & E & _). eauto. }
  destruct Hb as (buyer & Eb).
  destruct (sample_products rs (high_cost_low_sales_df df)) as (risky & Er & _).
  destruct (sample_products
              (fun i => rs (i + List.length (high_cost_low_sales_df df))%nat)
              (expiring_df today df)) as (soon & Es & _).
  exists buyer, risky, soon.
  unfold risky_sample, expiring_sample.
  rewrite Eb, Er, Es. simpl rbind. unfold shape0.
  repeat split.
  destruct (truthy_str buyer), (truthy_list risky), (truthy_list soon);
    reflexivity.
Qed.

Lemma products_sample_facts (rs : RandomState) (sub : DataFrame)
  (l : list string) :
  (s <- sample rs (Nat.min 2 (List.length sub)) sub ;; Ok (column Product s))
  = Ok l ->
  (truthy_list l = true <-> sub <> []) /\
  (List.length l <= 2)%nat /\
  (forall p, In p l -> exists r, In r sub /\ Product r = p).
Proof.
  intro E. destruct (sample_products rs sub) as (l' & E' & L & I).
  rewrite E' in E. injection E as <-. split; [|split].
  - destruct l' as [|p l'], sub as [|r sub]; simpl in *;
      split; intro H; try discriminate; try congruence; reflexivity.
  - lia.
  - exact I.
Qed.

(** The composer emits the high-holding-cost line exactly when the
    high-cost-low-sales subset is non-empty, the expiring line exactly when
    the expiring subset is non-empty, and the top-buyer line exactly when
    there is a top buyer whose name is not the empty string (which requires
    a non-empty overstock subset). *)
Theorem insight_lines_emitted_iff (rs : RandomState) (today : Timestamp)
  (df : DataFrame) :
  exists lines,
    insight_lines rs today df = Ok lines /\
    ((exists s, In (risky_line s) lines) <->
     high_cost_low_sales_df df <> []) /\
    ((exists s, In (expiring_line s) lines) <->
     expiring_df today df <> []) /\
    ((exists b v, In (top_buyer_line b v) lines) <->
     exists b, top_buyer (overstock_df df) = Ok (Some b) /\ b <> "") /\
    ((exists b v, In (top_buyer_line b v) lines) -> overstock_df df <> []).
Proof.
  destruct (insight_lines_exact rs today df)
    as (buyer & risky & soon & Eb & Er & Es & E).
  destruct lines_distinct as (D1 & D2 & D3 & D4 & D5 & D6).
  destruct (products_sample_facts _ _ _ Er) as (Tr & _).
  destruct (products_sample_facts _ _ _ Es) as (Ts & _).
  assert (Tb : truthy_str buyer = true <-> exists b, buyer = Some b /\ b <> "").
  { destruct buyer as [[|c b]|]; simpl; split; intro H;
      try discriminate; try reflexivity.
    - destruct H as (b & Hb & Hne). congruence.
    - eexists. split; [reflexivity | discriminate].
    - destruct H as (b & Hb & _). discriminate. }
  eexists. split; [exact E|].
  assert (Hin : forall x,
    In x ([low_stock_line (List.length (low_doi_df df))]
          ++ (if truthy_str buyer
              then [top_buyer_line buyer (top_buyer_val (overstock_df df))]
              else [])
          ++ (if truthy_list risky then [risky_line risky] else [])
          ++ (if truthy_list soon then [expiring_line soon] else [])) <->
    x = low_stock_line (List.length (low_doi_df df)) \/
    (truthy_str buyer = true /\
     x = top_buyer_line buyer (top_buyer_val (overstock_df df))) \/
    (truthy_list risky = true /\ x = risky_line risky) \/
    (truthy_list soon = true /\ x = expiring_line soon)).
  { intro x. simpl. rewrite !in_app_iff.
    destruct (truthy_str buyer), (truthy_list risky), (truthy_list soon);
      simpl; intuition congruence. }
  assert (Hbuyer : (exists b v, In (top_buyer_line b v)
      ([low_stock_line (List.length (low_doi_df df))]
          ++ (if truthy_str buyer
              then [top_buyer_line buyer (top_buyer_val (overstock_df df))]
              else [])
          ++ (if truthy_list risky then [risky_line risky] else [])
          ++ (if truthy_list soon then [expiring_line soon] else [])))
      <-> truthy_str buyer = true).
  { split.
    - intros (b & v & H). apply Hin in H.
      destruct H as [H|[[H _]|[[_ H]|[_ H]]]]; [|exact H| |]; exfalso.
      + exact (D1 _ _ _ (eq_sym H)).
      + exact (D4 _ _ _ H).
      + exact (D5 _ _ _ H).
    - intro H. exists buyer, (top_buyer_val (overstock_df df)).
      apply Hin. right. left. auto. }
  split; [|split; [|split]].
  - rewrite <- Tr. split.
    + intros (s & H). apply Hin in H.
      destruct H as [H|[[_ H]|[[H _]|[_ H]]]]; [|  |exact H|]; exfalso.
      * exact (D2 _ _ (eq_sym H)).
      * exact (D4 _ _ _ (eq_sym H)).
      * exact (D6 _ _ H).
    + intro H. exists risky. apply Hin. right. right. left. auto.
  - rewrite <- Ts. split.
    + intros (s & H). apply Hin in H.
      destruct H as [H|[[_ H]|[[_ H]|[H _]]]]; [| | |exact H]; exfalso.
      * exact (D3 _ _ (eq_sym H)).
      * exact (D5 _ _ _ (eq_sym H)).
      * exact (D6 _ _ (eq_sym H)).
    + intro H. exists soon. apply Hin. right. right. right. auto.
  - rewrite Hbuyer, Tb. rewrite Eb. split.
    + intros (b & -> & Hne). exists b. auto.
    + intros (b & Hb & Hne). injection Hb as ->. exists b. auto.
  - intro H. apply Hbuyer, Tb in H. destruct H as (b & -> & _).
    intro He. rewrite He in Eb. discriminate Eb.
Qed.

(** The lines come in a fixed order: the low-stock line, then the top
    buyer, then the high-holding-cost SKUs, then the expiring SKUs, each of
    the last three present or absent; so between one and four lines.  Each
    list of SKUs names at most two products, all taken from its subset. *)
Theorem insight_lines_order (rs : RandomState) (today : Timestamp)
  (df : DataFrame) :
  exists (has_buyer has_risky has_soon : bool) buyer value risky soon,
    insight_lines rs today df
    = Ok (low_stock_line (List.length (low_doi_df df))
          :: (if has_buyer then [top_buyer_line buyer value] else [])
          ++ (if has_risky then [risky_line risky] else [])
          ++ (if has_soon then [expiring_line soon] else [])) /\
    (List.length risky <= 2)%nat /\
    (forall p, In p risky ->
               exists r, In r (high_cost_low_sales_df df) /\ Product r = p) /\
    (List.length soon <= 2)%nat /\
    (forall p, In p soon ->
               exists r, In r (expiring_df today df) /\ Product r = p).
Proof.
  destruct (insight_lines_exact rs today df)
    as (buyer & risky & soon & Eb & Er & Es & E).
  destruct (products_sample_facts _ _ _ Er) as (_ & Lr & Ir).
  destruct (products_sample_facts _ _ _ Es) as (_ & Ls & Is).
  exists (truthy_str buyer), (truthy_list risky), (truthy_list soon),
    buyer, (top_buyer_val (overstock_df df)), risky, soon.
  split; [exact E|]. auto.
Qed.

(** ** The count shown in the low-stock line (line 72) *)

Lemma list_ascii_of_string_append (a b : string) :
  list_ascii_of_string (String.append a b)
  = list_ascii_of_string a ++ list_ascii_of_string b.
Proof. induction a as [|c a IH]; simpl; [reflexivity | now rewrite IH]. Qed.

Lemma append_inv_tail (a b s : string) :
  String.append a s = String.append b s -> a = b.
Proof.
  intro H. apply (f_equal list_ascii_of_string) in H.
  rewrite !list_ascii_of_string_append in H. apply app_inv_tail in H.
  rewrite <- (string_of_list_ascii_of_string a),
          <- (string_of_list_ascii_of_string b), H.
  reflexivity.
Qed.

Lemma str_nat_inj (n m : nat) : str_nat n = str_nat m -> n = m.
Proof.
  unfold str_nat. intro H.
  assert (Hn : forall k, Nat.to_uint k <> Decimal.Nil).
  { intro k. rewrite <- (DecimalNat.Unsigned.of_to k) at 1.
    rewrite DecimalNat.Unsigned.to_of. apply DecimalFacts.unorm_nonnil. }
  apply (f_equal NilZero.uint_of_string) in H.
  rewrite !NilZero.usu in H by apply Hn.
  injection H as H. now apply DecimalNat.Unsigned.to_uint_inj.
Qed.

(** The low-stock line tells the count apart: two different counts never
    give the same line. *)
Theorem low_stock_line_shows_count (n m : nat) (Hnm : n <> m) :
  low_stock_line n <> low_stock_line m.
Proof.
  intro H. apply Hnm. unfold low_stock_line in H.
  cbn [String.concat String.append] in H.
  repeat match type of H with
         | String ?c _ = String ?c _ => injection H as H
         end.
  apply append_inv_tail in H. now apply str_nat_inj.
Qed.

Lemma low_stock_line_shows_count_witness :
  3%nat <> 4%nat /\ low_stock_line 3 <> low_stock_line 4.
Proof.
  assert (H : 3%nat <> 4%nat) by discriminate.
  split; [exact H | exact (low_stock_line_shows_count 3 4 H)].
Defined.

(** ** Top-N without ties (lines 119 and 183) *)

Lemma descending_head_max (by_ : Row -> Q) (x y : Row) (l : DataFrame) :
  descending by_ (y :: l) -> In x (y :: l) -> by_ x <= by_ y.
Proof.
  unfold descending. intros H [<-|Hx]; [apply Qle_refl|].
  inversion H as [|? ? _ F]; subst. rewrite Forall_forall in F.
  now apply F.
Qed.

Lemma descending_tail (by_ : Row -> Q) (y : Row) (l : DataFrame) :
  descending by_ (y :: l) -> descending by_ l.
Proof. unfold descending. now inversion 1. Qed.

(** Two descending arrangements of the same rows coincide when no two
    different rows share a value. *)
Lemma descending_perm_unique (by_ : Row -> Q) (l1 l2 : DataFrame) :
  descending by_ l1 -> descending by_ l2 -> Permutation l1 l2 ->
  (forall a b, In a l1 -> In b l1 -> by_ a == by_ b -> a = b) ->
  l1 = l2.
Proof.
  revert l2. induction l1 as [|x l1 IH]; intros l2 D1 D2 P Hinj.
  - apply Permutation_nil in P. now subst.
  - destruct l2 as [|y l2].
    { apply Permutation_sym, Permutation_nil in P. discriminate. }
    assert (Hy : In y (x :: l1))
      by (apply (Permutation_in _ (Permutation_sym P)); now left).
    assert (Hx : In x (y :: l2))
      by (apply (Permutation_in _ P); now left).
    assert (E : x = y).
    { apply Hinj; [now left | exact Hy|].
      apply Qle_antisym.
      - exact (descending_head_max by_ x y l2 D2 Hx).
      - exact (descending_head_max by_ y x l1 D1 Hy). }
    subst y. f_equal.
    apply IH.
    + eapply descending_tail; eassumption.
    + eapply descending_tail; eassumption.
    + eapply Permutation_cons_inv; eassumption.
    + intros a b Ha Hb. apply Hinj; now right.
Qed.

Lemma sorts_agree (kind kind' : SortKind) (by_ : Row -> Q) (df : DataFrame) :
  sorts kind -> sorts kind' ->
  (forall a b, In a df -> In b df -> by_ a == by_ b -> a = b) ->
  kind by_ df = kind' by_ df.
Proof.
  intros H H' Hinj.
  destruct (H by_ df) as [P D], (H' by_ df) as [P' D'].
  apply (descending_perm_unique by_); [exact D | exact D' | |].
  - eapply perm_trans; [exact P | apply Permutation_sym, P'].
  - intros a b Ha Hb.
    apply Hinj; [exact (Permutation_in a P Ha) | exact (Permutation_in b P Hb)].
Qed.

(** When no two different rows of the table share an overstock value, the
    top-10 overstock selection does not depend on the sorting algorithm,
    and is the one a stable sort gives; likewise for the top-10 revenue
    selection when no two different rows share a revenue. *)
Theorem top_n_independent_of_kind (kind kind' : SortKind)
  (Hkind : sorts kind) (Hkind' : sorts kind') (df filtered : DataFrame) :
  ((forall a b, In a df -> In b df ->
      OverstockInventoryValue a == OverstockInventoryValue b -> a = b) ->
   top_overstock kind df = top_overstock kind' df /\
   top_overstock kind df = spec_top_n 10 OverstockInventoryValue df) /\
  ((forall a b, In a filtered -> In b filtered ->
      _12MoDollarsSold a == _12MoDollarsSold b -> a = b) ->
   top_revenue kind filtered = top_revenue kind' filtered /\
   top_revenue kind filtered = spec_top_n 10 _12MoDollarsSold filtered).
Proof.
  unfold top_overstock, top_revenue, spec_top_n, head.
  split; intro Hinj; split; f_equal;
    apply sorts_agree; auto using kind_stable_sorts.
Qed.

Lemma top_n_independent_of_kind_witness :
  sorts kind_reversing /\ sorts kind_stable /\
  (forall a b, In a busy -> In b busy ->
      OverstockInventoryValue a == OverstockInventoryValue b -> a = b) /\
  top_overstock kind_reversing busy = top_overstock kind_stable busy /\
  column Product (top_overstock kind_reversing busy) = ["P3"; "P1"; "P2"].
Proof.
  assert (Hinj : forall a b, In a busy -> In b busy ->
      OverstockInventoryValue a == OverstockInventoryValue b -> a = b).
  { intros a b [<-|[<-|[<-|[]]]] [<-|[<-|[<-|[]]]] H;
      try reflexivity; vm_compute in H; discriminate H. }
  split; [apply kind_reversing_sorts|]. split; [apply kind_stable_sorts|].
  split; [exact Hinj|]. split; [|reflexivity].
  exact (proj1 (proj1 (top_n_independent_of_kind kind_reversing kind_stable
           kind_reversing_sorts kind_stable_sorts busy busy) Hinj)).
Defined.

(** ** The Explorer's filters and select boxes (lines 138-148) *)

Lemma filter_twice {A : Type} (p q : A -> bool) (l : list A) :
  filter p (filter q l) = filter (fun x => q x && p x) l.
Proof.
  induction l as [|x l IH]; simpl; [reflexivity|].
  destruct (q x); simpl; [destruct (p x)|]; now rewrite IH.
Qed.

Lemma filter_all {A : Type} (p : A -> bool) (l : list A) :
  (forall x, p x = true) -> filter p l = l.
Proof.
  intro H. induction l as [|x l IH]; simpl; [reflexivity|].
  now rewrite H, IH.
Qed.

Lemma keep_equal_selected_ok (col : Row -> string) (selected : string)
  (f : DataFrame) :
  keep_equal col selected f = filter (fun r => selected_ok selected (col r)) f.
Proof.
  unfold selected_ok. destruct (String.eqb selected "All") eqn:E.
  - apply String.eqb_eq in E. subst. rewrite keep_equal_all.
    symmetry. now apply filter_all.
  - apply String.eqb_neq in E. now apply keep_equal_filter.
Qed.

Lemma selected_ok_iff (selected value : string) :
  selected_ok selected value = true <-> selected = "All" \/ value = selected.
Proof.
  unfold selected_ok. now rewrite orb_true_iff, !String.eqb_eq.
Qed.

(** The three select boxes act as one conjunction: the filtered table
    holds, in table order, exactly the rows that agree with every box not
    set to "All".  Hence filtering twice changes nothing, and the order in
    which two boxes are applied does not matter. *)
Theorem filtered_df_conjunction (sw sb sc : string) (df : DataFrame) :
  (forall r, In r (filtered_df sw sb sc df) <->
             In r df /\ (sw = "All" \/ Warehouse r = sw)
             /\ (sb = "All" \/ Buyer r = sb)
             /\ (sc = "All" \/ Category r = sc)) /\
  subframe (filtered_df sw sb sc df) df /\
  filtered_df sw sb sc (filtered_df sw sb sc df) = filtered_df sw sb sc df /\
  (forall (c1 c2 : Row -> string) s1 s2 f,
      keep_equal c2 s2 (keep_equal c1 s1 f)
      = keep_equal c1 s1 (keep_equal c2 s2 f)).
Proof.
  assert (E : forall f, filtered_df sw sb sc f
    = filter (fun r => selected_ok sw (Warehouse r) && selected_ok sb (Buyer r)
                       && selected_ok sc (Category r)) f).
  { intro f. unfold filtered_df.
    rewrite !keep_equal_selected_ok, !filter_twice.
    apply filter_ext. intro r. now rewrite andb_assoc. }
  split; [|split; [|split]].
  - intro r. rewrite E, filter_In, !andb_true_iff, !selected_ok_iff. tauto.
  - rewrite E. apply filter_subframe.
  - rewrite !E. apply filter_idem.
  - intros c1 c2 s1 s2 f. rewrite !keep_equal_selected_ok, !filter_twice.
    apply filter_ext. intro r. apply andb_comm.
Qed.

Lemma existsb_eqb_in (x : string) (seen : list string) :
  existsb (String.eqb x) seen = true <-> In x seen.
Proof.
  rewrite existsb_exists. split.
  - intros (y & Hy & E). apply String.eqb_eq in E. now subst.
  - intro H. exists x. split; [exact H | apply String.eqb_refl].
Qed.

Lemma unique_from_spec (l seen : list string) :
  NoDup (unique_from seen l) /\
  forall x, In x (unique_from seen l) <-> In x l /\ ~ In x seen.
Proof.
  revert seen. induction l as [|y l IH]; intro seen; simpl.
  - split; [constructor | tauto].
  - destruct (existsb (String.eqb y) seen) eqn:E.
    + apply existsb_eqb_in in E. destruct (IH seen) as [N M].
      split; [exact N|]. intro x. rewrite M. split; [tauto|].
      intros [[<-|H] Hs]; [contradiction | tauto].
    + assert (Hy : ~ In y seen)
        by (rewrite <- existsb_eqb_in, E; discriminate).
      destruct (IH (y :: seen)) as [N M]. split.
      * constructor; [|exact N]. rewrite M. simpl. tauto.
      * intro x. simpl. rewrite M. simpl.
        destruct (string_dec y x) as [<-|Hne]; tauto.
Qed.

(** A select box offers "All" first, then every value of its column once.
    Its entries are pairwise different unless the column itself holds the
    value "All", which is then offered twice. *)
Theorem options_list (col : Row -> string) (df : DataFrame) :
  hd_error (options col df) = Some "All" /\
  (forall x, In x (options col df) <-> x = "All" \/ In x (column col df)) /\
  NoDup (tl (options col df)) /\
  (NoDup (options col df) <-> ~ In "All" (column col df)).
Proof.
  unfold options, unique.
  destruct (unique_from_spec (column col df) []) as [N M].
  split; [reflexivity|]. split; [|split; [exact N|]].
  - intro x. simpl. rewrite M. simpl. intuition congruence.
  - split.
    + intros H Hin. inversion H as [|? ? Hn _]; subst.
      apply Hn, M. simpl. tauto.
    + intro H. constructor; [|exact N]. rewrite M. tauto.
Qed.

(** Choosing in one box a value it lists, other than "All", and leaving the
    two other boxes on "All" never empties the table. *)
Theorem listed_choice_is_not_empty (df : DataFrame) (selected : string)
  (Hsel : selected <> "All") :
  (In selected (options Warehouse df) ->
   filtered_df selected "All" "All" df <> []) /\
  (In selected (options Buyer df) ->
   filtered_df "All" selected "All" df <> []) /\
  (In selected (options Category df) ->
   filtered_df "All" "All" selected df <> []).
Proof.
  assert (H : forall col, In selected (options col df) ->
                          keep_equal col selected df <> []).
  { intros col Hin. apply (options_list col df) in Hin.
    destruct Hin as [Hin|Hin]; [contradiction|].
    unfold column in Hin. apply in_map_iff in Hin.
    destruct Hin as (r & Hr & Hin).
    rewrite (keep_equal_filter col selected df Hsel). intro E.
    assert (Hf : In r (filter (fun r0 => (col r0 =? selected)%string) df))
      by (apply filter_In; split; [exact Hin | now apply String.eqb_eq]).
    rewrite E in Hf. exact Hf. }
  unfold filtered_df. rewrite !keep_equal_all.
  split; [|split]; apply H.
Qed.

Lemma listed_choice_is_not_empty_witness :
  "W1" <> "All" /\ In "W1" (options Warehouse two_warehouses) /\
  filtered_df "W1" "All" "All" two_warehouses <> [].
Proof.
  assert (H : "W1" <> "All") by discriminate.
  assert (Hin : In "W1" (options Warehouse two_warehouses))
    by (right; right; left; reflexivity).
  split; [exact H|]. split; [exact Hin|].
  exact (proj1 (listed_choice_is_not_empty two_warehouses "W1" H) Hin).
Defined.

(** ** The two expiry horizons (lines 54 and 204) *)

(** At one clock reading, every row the Overview counts as expiring is
    among those the unfiltered Explorer shows as expiring soon; narrowing
    the Explorer's selection to the 30-day horizon gives back the
    Overview's subset. *)
Theorem expiring_30_within_90 (today : Timestamp) (df : DataFrame) :
  (forall r, In r (expiring_df today df) -> In r (expiring_soon today df)) /\
  expiring_df today (expiring_soon today df) = expiring_df today df /\
  expiring_soon today (filtered_df "All" "All" "All" df)
  = expiring_soon today df.
Proof.
  rewrite !expiring_df_filter, !expiring_soon_filter. unfold Timedelta_days.
  split; [|split; [|reflexivity]].
  - intros r. rewrite !filter_In, !Z.ltb_lt. intros [H1 H2].
    split; [exact H1 | lia].
  - rewrite filter_twice. apply filter_ext_in. intros r _.
    destruct (ExpiryDate r <? today + 30 * 86400000000000)%Z eqn:E;
      [|apply andb_false_r].
    rewrite andb_true_r. apply Z.ltb_lt in E. apply Z.ltb_lt. lia.
Qed.

(** The Explorer replaces the expiry chart by its message exactly when no
    row of the filtered table expires before the 90-day horizon; otherwise
    the chart gets the non-empty frame of the rows that do. *)
Theorem expiry_chart_or_message (today : Timestamp) (kind : SortKind)
  (sw sb sc : string) (df : DataFrame) :
  (ex_expiry_chart (explorer today kind sw sb sc df) = None <->
   forall r, In r (filtered_df sw sb sc df) ->
             (today + 90 * 86400000000000 <= ExpiryDate r)%Z) /\
  (forall soon,
      ex_expiry_chart (explorer today kind sw sb sc df) = Some soon ->
      soon <> [] /\
      forall r, In r soon <->
                In r (filtered_df sw sb sc df) /\
                (ExpiryDate r < today + 90 * 86400000000000)%Z).
Proof.
  unfold explorer, explorer_charts. simpl ex_expiry_chart.
  rewrite expiring_soon_filter. unfold Timedelta_days.
  set (f := filtered_df sw sb sc df).
  set (p := fun r => (ExpiryDate r <? today + 90 * 86400000000000)%Z).
  split.
  - destruct (filter p f) as [|x l] eqn:E; simpl.
    + split; [intros _|reflexivity]. intros r Hr.
      destruct (p r) eqn:Ep.
      * assert (Hin : In r (filter p f)) by (apply filter_In; auto).
        rewrite E in Hin. destruct Hin.
      * unfold p in Ep. now apply Z.ltb_ge in Ep.
    + split; [discriminate|]. intro H. exfalso.
      assert (Hx : In x (filter p f)) by (rewrite E; now left).
      apply filter_In in Hx. destruct Hx as [Hx Hp].
      specialize (H x Hx). unfold p in Hp. apply Z.ltb_lt in Hp. lia.
  - intros soon. destruct (filter p f) as [|x l] eqn:E; simpl;
      [discriminate|].
    intro H. injection H as <-. split; [discriminate|].
    intro r. rewrite <- E, filter_In. unfold p. now rewrite Z.ltb_lt.
Qed.

(** ** What a run of the script renders (lines 48-213) *)

Lemma overview_frames (rs : RandomState) (today : Timestamp) (kind : SortKind)
  (df : DataFrame) (o : OverviewOut) :
  overview rs today kind df = Ok o ->
  ov_doi_chart o = df /\ ov_table o = df /\
  ov_overstock_chart o = top_overstock kind df /\
  ov_total_products o = List.length df.
Proof.
  unfold overview. destruct (insight_lines rs today df); simpl; [|discriminate].
  intro H. injection H as <-. simpl. auto.
Qed.

Lemma script_result (inp : Inputs) (raw : DataFrame) :
  exists page,
    script inp raw = Ok (page, classified raw) /\
    match page with
    | OverviewPage o =>
        view_mode inp = "📊 Overview" /\
        overview (random_state inp) (today inp) (kind inp) (classified raw)
        = Ok o
    | ExplorerPage e =>
        view_mode inp <> "📊 Overview" /\
        view_mode inp = "📈 Visual Explorer" /\
        e = explorer (today inp) (kind inp) (selected_warehouse inp)
              (selected_buyer inp) (selected_category inp) (classified raw)
    | NoPage =>
        view_mode inp <> "📊 Overview" /\
        view_mode inp <> "📈 Visual Explorer"
    end.
Proof.
  unfold script, app_bind, read, setitem_DOI_Status.
  rewrite assign_classified. simpl rbind. cbv iota beta.
  destruct (view_mode inp =? "📊 Overview")%string eqn:E1.
  - apply String.eqb_eq in E1. unfold try.
    destruct (overview_total (random_state inp) (today inp) (kind inp)
                (classified raw)) as (o & E & _).
    rewrite E. simpl. exists (OverviewPage o). auto.
  - apply String.eqb_neq in E1.
    destruct (view_mode inp =? "📈 Visual Explorer")%string eqn:E2.
    + apply String.eqb_eq in E2. eexists (ExplorerPage _).
      split; [reflexivity|]. auto.
    + apply String.eqb_neq in E2. exists NoPage. split; [reflexivity|]. auto.
Qed.

Lemma sorted_head_in (kind : SortKind) (by_ : Row -> Q) (n : nat)
  (df : DataFrame) (r : Row) :
  sorts kind -> In r (head n (kind by_ df)) -> In r df.
Proof.
  intros Hk Hr. unfold head in Hr. apply in_firstn in Hr.
  exact (Permutation_in r (proj1 (Hk by_ df)) Hr).
Qed.

Lemma filtered_df_in (sw sb sc : string) (df : DataFrame) (r : Row) :
  In r (filtered_df sw sb sc df) -> In r df.
Proof.
  unfold filtered_df. intro H. now apply keep_equal_in, keep_equal_in,
    keep_equal_in in H.
Qed.

(** Whatever the page, every row handed to one of its charts or tables is a
    row of the table as line 48 left it, and so carries the status label of
    its own DOI. *)
Theorem page_rows_carry_status (inp : Inputs) (raw : DataFrame)
  (Hkind : sorts (kind inp)) :
  exists page df,
    script inp raw = Ok (page, df) /\
    forall f r, In f (frames_of_page page) -> In r f ->
                In r df /\ DOI_Status r = Some (doi_label (DOI r)).
Proof.
  destruct (script_result inp raw) as (page & E & Hpage).
  exists page, (classified raw). split; [exact E|].
  assert (Hin : forall f r, In f (frames_of_page page) -> In r f ->
                            In r (classified raw)).
  { intros f r Hf Hr. destruct page as [o|e|]; simpl in Hf.
    - destruct Hpage as [_ Ho]. apply overview_frames in Ho.
      destruct Ho as (H1 & H2 & H3 & _).
      destruct Hf as [<-|[<-|[<-|[]]]].
      + now rewrite H1 in Hr.
      + rewrite H3 in Hr. eapply sorted_head_in; eassumption.
      + now rewrite H2 in Hr.
    - destruct Hpage as (_ & _ & ->).
      unfold explorer, explorer_charts in Hf. simpl in Hf.
      destruct Hf as [<-|[<-|[<-|[<-|[<-|Hf]]]]];
        try (eapply filtered_df_in; eassumption).
      + eapply filtered_df_in, sorted_head_in; eassumption.
      + destruct (negb (empty (expiring_soon (today inp)
          (filtered_df (selected_warehouse inp) (selected_buyer inp)
             (selected_category inp) (classified raw))))); [|destruct Hf].
        destruct Hf as [<-|[]]. rewrite expiring_soon_filter in Hr.
        apply filter_In in Hr. eapply filtered_df_in. apply Hr.
    - destruct Hf. }
  intros f r Hf Hr. specialize (Hin f r Hf Hr).
  split; [exact Hin | now apply (classified_DOI raw)].
Qed.

Lemma page_rows_carry_status_witness :
  sorts kind_stable /\
  exists page df,
    script (mkInputs "📈 Visual Explorer" "W2" "All" "All" noon (fun i => i)
              kind_stable) busy = Ok (page, df) /\
    forall f r, In f (frames_of_page page) -> In r f ->
                In r df /\ DOI_Status r = Some (doi_label (DOI r)).
Proof.
  split; [apply kind_stable_sorts|].
  exact (page_rows_carry_status
           (mkInputs "📈 Visual Explorer" "W2" "All" "All" noon (fun i => i)
              kind_stable) busy kind_stable_sorts).
Defined.

(** The script renders the Overview exactly when the view mode is the
    Overview's label, the Explorer exactly when it is the Explorer's, and
    nothing for any other mode; in no case does it raise. *)
Theorem view_mode_selects_page (inp : Inputs) (raw : DataFrame) :
  exists page df,
    script inp raw = Ok (page, df) /\
    ((exists o, page = OverviewPage o) <-> view_mode inp = "📊 Overview") /\
    ((exists e, page = ExplorerPage e) <->
     view_mode inp = "📈 Visual Explorer") /\
    (page = NoPage <->
     view_mode inp <> "📊 Overview" /\ view_mode inp <> "📈 Visual Explorer") /\
    (forall e, page = ExplorerPage e ->
       e = explorer (today inp) (kind inp) (selected_warehouse inp)
             (selected_buyer inp) (selected_category inp) df).
Proof.
  destruct (script_result inp raw) as (page & E & Hpage).
  exists page, (classified raw). split; [exact E|].
  assert (Hne : "📊 Overview" <> "📈 Visual Explorer") by discriminate.
  destruct page as [o|e|].
  - destruct Hpage as [Hm _]. repeat split; try discriminate;
      try (intros (? & H); discriminate H); try congruence.
    + intros _. eauto.
    + intros [H _]. congruence.
  - destruct Hpage as (Hn & Hm & He). repeat split; try discriminate;
      try (intros (? & H); discriminate H); try congruence.
    + intros _. eauto.
    + intros [_ H]. congruence.
  - destruct Hpage as [Hn1 Hn2]. repeat split; try discriminate;
      try (intros (? & H); discriminate H); try congruence; auto.
Qed.

(** ** The classifier as an ordered scale (lines 37-48) *)

Lemma status_rank_values :
  status_rank LOW = 0%nat /\ status_rank NORMAL = 1%nat
  /\ status_rank OVERSTOCK = 2%nat.
Proof. repeat split. Qed.

(** The classifier respects the order of its inputs: a larger DOI never
    gets a scarcer label, and two values that bound each other get the
    same label. *)
Theorem doi_label_monotone (v w : Q) (Hvw : v <= w) :
  (status_rank (doi_label v) <= status_rank (doi_label w))%nat /\
  (w <= v -> doi_label v = doi_label w).
Proof.
  destruct status_rank_values as (R0 & R1 & R2).
  destruct (doi_label_cases v) as [[V Ev]|[(V1 & V2 & Ev)|(V1 & V2 & Ev)]];
  destruct (doi_label_cases w) as [[W Ew]|[(W1 & W2 & Ew)|(W1 & W2 & Ew)]];
    rewrite Ev, Ew, ?R0, ?R1, ?R2;
    (split; [try lia; exfalso; lra | intro; try reflexivity; exfalso; lra]).
Qed.

Lemma doi_label_monotone_witness :
  5 <= 50 /\
  (status_rank (doi_label 5) <= status_rank (doi_label 50))%nat.
Proof.
  assert (H : 5 <= 50) by discriminate.
  split; [exact H | exact (proj1 (doi_label_monotone 5 50 H))].
Defined.

(** The three labels split the table: the numbers of "Low", "Normal" and
    "Overstock" labels the classifier returns add up to the number of
    values it was given. *)
Theorem status_counts_add_up (dois : list Q) :
  (count_occ string_dec (get_doi_status dois) LOW
   + count_occ string_dec (get_doi_status dois) NORMAL
   + count_occ string_dec (get_doi_status dois) OVERSTOCK
   = List.length dois)%nat.
Proof.
  rewrite get_doi_status_map.
  destruct labels_distinct as (D1 & D2 & D3).
  induction dois as [|d dois IH]; [reflexivity|].
  simpl map. simpl List.length.
  destruct (doi_label_cases d) as [[_ E]|[(_ & _ & E)|(_ & _ & E)]];
    rewrite E; simpl count_occ;
    repeat match goal with
           | |- context [string_dec ?a ?b] =>
               destruct (string_dec a b); try congruence
           end; lia.
Qed.
